(** * X402Agent: a payment-aware request wrapper

    Shallow embedding of [packages/hardhat/lib/x402Agent.ts], and of the
    script that drives it, [packages/hardhat/scripts/agentExample.ts].

    The class wraps a payment-capable [fetch] (built by the [x402-fetch]
    library from a [viem] account) and returns, for every request, the
    decoded body together with the payment metadata found in the
    [x-payment-response] header.

    What is embedded here
    - JavaScript values as an inductive type ([JsValue]), with the
      language operations the class relies on: [ToBoolean], [typeof],
      property reads, optional chaining, [||] and template-literal
      conversion;
    - request headers ([Record<string, string>]) as [gmap string string];
    - [throw], [try]/[catch] and the calls to the outside world as a
      small monad over a trace of observable events;
    - the imported library functions as the fields of a class [Runtime];
    - the console, the exit code and the surroundings of the script
      (environment, key store) as a second monad and a class [Host]. *)

From Stdlib Require Import ZArith Ascii String List PrimFloat SpecFloat FloatOps.
From stdpp Require Import gmap strings pretty.

Import ListNotations.

Set Warnings "-register-all".

(** ** JavaScript values *)

(** [body], [data], thrown values and the decoded payment object are all
    typed [any] in the source.  Numbers are IEEE 754 doubles, as in
    JavaScript.  [JError name message] is an instance of a built-in
    error class, as produced by [new Error(message)]. *)
Inductive JsValue : Type :=
| JUndefined
| JNull
| JBool (b : bool)
| JNum (n : float)
| JStr (s : string)
| JArr (items : list JsValue)
| JObj (props : list (string * JsValue))
| JError (name message : string).

(** [new Error(message)] *)
Definition new_Error (message : string) : JsValue := JError "Error" message.

(** The abstract operation [ToBoolean]: [undefined], [null], [false],
    [+0], [-0], [NaN] and the empty string are falsy, everything else is
    truthy. *)
Definition ToBoolean (v : JsValue) : bool :=
  match v with
  | JUndefined | JNull => false
  | JBool b => b
  | JNum n => negb (is_zero n || is_nan n)
  | JStr s => negb (String.eqb s "")
  | JArr _ | JObj _ | JError _ _ => true
  end.

(** The [typeof] operator.  [typeof null] is ["object"]. *)
Definition typeof (v : JsValue) : string :=
  match v with
  | JUndefined => "undefined"
  | JBool _ => "boolean"
  | JNum _ => "number"
  | JStr _ => "string"
  | JNull | JArr _ | JObj _ | JError _ _ => "object"
  end.

Definition is_nullish (v : JsValue) : bool :=
  match v with
  | JUndefined | JNull => true
  | _ => false
  end.

(** First binding of a key in the property list of an object. *)
Fixpoint assoc (k : string) (props : list (string * JsValue)) : JsValue :=
  match props with
  | [] => JUndefined
  | (k', v) :: rest => if String.eqb k k' then v else assoc k rest
  end.

(** [v[k]] for a value [v] that is neither [undefined] nor [null].  The
    class reads only the names [message], [response], [data], [error],
    [txHash], [amount], [recipient] and [chainId]: none of them is
    defined on a primitive wrapper or on an array, and on an error
    instance only [message] (and the inherited [name]) is. *)
Definition get_prop (v : JsValue) (k : string) : JsValue :=
  match v with
  | JObj props => assoc k props
  | JError name message =>
      if String.eqb k "message" then JStr message
      else if String.eqb k "name" then JStr name
      else JUndefined
  | _ => JUndefined
  end.

(** Optional chaining [v?.k]. *)
Definition opt_chain (v : JsValue) (k : string) : JsValue :=
  if is_nullish v then JUndefined else get_prop v k.

(** [a || b], with [b] already evaluated (the class only uses it with
    operands whose evaluation has no effect). *)
Definition js_or (a b : JsValue) : JsValue :=
  if ToBoolean a then a else b.

(** [s.startsWith(p)] *)
Fixpoint startsWith (s p : string) {struct p} : bool :=
  match p with
  | EmptyString => true
  | String c p' =>
      match s with
      | EmptyString => false
      | String d s' => Ascii.eqb c d && startsWith s' p'
      end
  end.

(** [s.includes(sub)] *)
Fixpoint includes (s sub : string) : bool :=
  startsWith s sub ||
  match s with
  | EmptyString => false
  | String _ s' => includes s' sub
  end.

(** [xs.join(sep)] on strings already converted. *)
Fixpoint join (sep : string) (xs : list string) : string :=
  match xs with
  | [] => ""
  | [x] => x
  | x :: rest => x +:+ sep +:+ join sep rest
  end.

(** ** Results of calls *)

(** A call either returns a value or throws one. *)
Inductive Outcome (A : Type) : Type :=
| Return (a : A)
| Throw (e : JsValue).
Arguments Return {A} a.
Arguments Throw {A} e.

(** ** Requests, responses and the agent *)

(** [X402RequestOptions]: every field is optional; an omitted field reads
    [undefined]. *)
Record X402RequestOptions : Type := {
  opt_method : option string;
  opt_headers : option (gmap string string);
  opt_body : JsValue;
  opt_parseJson : option bool;
}.

(** The object literal [{}]. *)
Definition no_options : X402RequestOptions :=
  {| opt_method := None; opt_headers := None;
     opt_body := JUndefined; opt_parseJson := None |}.

(** The [RequestInit] handed to [fetch].  [ri_body = None] when the
    object has no [body] property. *)
Record RequestInit : Type := {
  ri_method : string;
  ri_headers : option (gmap string string);
  ri_body : option JsValue;
}.

(** The part of a [Response] the class looks at: [status], [statusText],
    [headers.get(name)] ([None] for [null]), and what [json()] and
    [text()] resolve or reject with. *)
Record Response : Type := {
  status : Z;
  statusText : string;
  headers_get : string -> option string;
  json : Outcome JsValue;
  text : Outcome string;
}.

(** A [viem] account; only its [address] is read. *)
Record Account : Type := { account_address : string }.

(** Observable calls to the outside world, in the order they happen. *)
Inductive Event : Type :=
| EvPrivateKeyToAccount (privateKey : string)
| EvWrapFetchWithPayment (account : Account)
| EvFetchWithPayment (url : string) (init : RequestInit).

Definition Trace : Type := list Event.

(** A payment-capable [fetch]: what it answers may depend on everything
    that happened before (the network, the server and the wallet are
    stateful), so it reads the trace. *)
Definition FetchFn : Type := Trace -> string -> RequestInit -> Outcome Response.

(** The private fields of [X402Agent]. *)
Record X402Agent : Type := {
  account : Account;
  fetchWithPayment : FetchFn;
}.

(** [X402Response["payment"]] and [X402Response]. *)
Record Payment : Type := {
  txHash : JsValue;
  amount : JsValue;
  recipient : JsValue;
  chainId : JsValue;
  raw : JsValue;
}.

Record X402Response : Type := {
  data : JsValue;
  payment : Payment;
  resp_status : Z;
  resp_statusText : string;
}.

(** ** The imported functions *)

(** [privateKeyToAccount] ([viem/accounts]), [wrapFetchWithPayment] and
    [decodeXPaymentResponse] ([x402-fetch]), and the two built-ins whose
    result is a string: [JSON.stringify] and the conversion of a number
    to a string.  All of them are pure; the first, the third and the
    fourth may throw. *)
Class Runtime : Type := {
  privateKeyToAccount : string -> Outcome Account;
  wrapFetchWithPayment : Account -> FetchFn;
  decodeXPaymentResponse : string -> Outcome JsValue;
  JSON_stringify : JsValue -> Outcome string;
  Number_toString : float -> string;
}.

(** ** The monad of the class: a trace of events, and exceptions *)

Definition M (A : Type) : Type := Trace -> Outcome A * Trace.

Definition ret {A} (a : A) : M A := fun t => (Return a, t).

Definition throw {A} (e : JsValue) : M A := fun t => (Throw e, t).

Definition bind {A B} (m : M A) (k : A -> M B) : M B :=
  fun t =>
    match m t with
    | (Return a, t') => k a t'
    | (Throw e, t') => (Throw e, t')
    end.

(** [try { m } catch (error) { h error }] *)
Definition try_catch {A} (m : M A) (h : JsValue -> M A) : M A :=
  fun t =>
    match m t with
    | (Return a, t') => (Return a, t')
    | (Throw e, t') => h e t'
    end.

(** The result of a pure call, which may throw. *)
Definition lift {A} (o : Outcome A) : M A := fun t => (o, t).

(** A call that is recorded on the trace; its answer may read the trace
    as it was before the call. *)
Definition call {A} (ev : Event) (answer : Trace -> Outcome A) : M A :=
  fun t => (answer t, t ++ [ev]).

Declare Scope js_scope.
Delimit Scope js_scope with js.
Notation "x <- m ;; k" := (bind m (fun x => k))
  (at level 100, m at next level, right associativity) : js_scope.
Open Scope js_scope.

Section Agent.

Context {rt : Runtime}.

(** Conversion to a string, as a template literal does it.  An array is
    joined with commas, its [undefined] and [null] items printing as the
    empty string; a plain object prints as ["[object Object]"]; an error
    as [name: message]. *)
Fixpoint ToString (v : JsValue) : string :=
  match v with
  | JUndefined => "undefined"
  | JNull => "null"
  | JBool true => "true"
  | JBool false => "false"
  | JNum n => Number_toString n
  | JStr s => s
  | JArr items =>
      join "," (map (fun x => if is_nullish x then "" else ToString x) items)
  | JObj _ => "[object Object]"
  | JError name message =>
      if String.eqb name "" then message
      else if String.eqb message "" then name
      else name +:+ ": " +:+ message
  end.

(** *** The constructor (lines 72-79) *)

Definition new_X402Agent (privateKey : string) : M X402Agent :=
  if negb (startsWith privateKey "0x") then
    throw (new_Error "Private key must start with 0x")
  else
    account <- call (EvPrivateKeyToAccount privateKey)
                    (fun _ => privateKeyToAccount privateKey) ;;
    fetchWithPayment <- call (EvWrapFetchWithPayment account)
                             (fun _ => Return (wrapFetchWithPayment account)) ;;
    ret {| account := account; fetchWithPayment := fetchWithPayment |}.

(** *** The [address] getter (lines 84-86) *)

Definition address (this : X402Agent) : M string :=
  ret (account_address (account this)).

(** *** [callEndpoint] (lines 133-184) *)

(** Lines 136-154: the [RequestInit] built from the destructured options.
    Nothing here touches the outside world, but [JSON.stringify] may
    throw, and it runs before the [try] block is entered. *)
Definition prepareFetchOptions (method : string) (headers : gmap string string)
    (body : JsValue) : Outcome RequestInit :=
  let fetchOptions :=
    {| ri_method := method; ri_headers := Some headers; ri_body := None |} in
  if ToBoolean body then
    if String.eqb (typeof body) "object" then
      match JSON_stringify body with
      | Throw e => Throw e
      | Return serialized =>
          let headers' :=
            match ri_headers fetchOptions with
            | None => ∅
            | Some h => h
            end in
          Return {| ri_method := ri_method fetchOptions;
                    ri_headers :=
                      Some (<["Content-Type" := "application/json"]> headers');
                    ri_body := Some (JStr serialized) |}
      end
    else
      Return {| ri_method := ri_method fetchOptions;
                ri_headers := ri_headers fetchOptions;
                ri_body := Some body |}
  else
    Return fetchOptions.

(** Line 161: [parseJson ? await response.json() : await response.text()] *)
Definition readBody (parseJson : bool) (response : Response) : Outcome JsValue :=
  if parseJson then json response
  else
    match text response with
    | Return s => Return (JStr s)
    | Throw e => Throw e
    end.

(** Lines 164-165: the header, and its decoding when it is a non-empty
    string. *)
Definition decodePayment (response : Response) : Outcome JsValue :=
  match headers_get response "x-payment-response" with
  | Some paymentResponseHeader =>
      if ToBoolean (JStr paymentResponseHeader)
      then decodeXPaymentResponse paymentResponseHeader
      else Return JNull
  | None => Return JNull
  end.

(** Lines 167-178: the object that is returned. *)
Definition envelope (data : JsValue) (paymentResponse : JsValue)
    (response : Response) : X402Response :=
  {| data := data;
     payment :=
       {| txHash := opt_chain paymentResponse "txHash";
          amount := opt_chain paymentResponse "amount";
          recipient := opt_chain paymentResponse "recipient";
          chainId := opt_chain paymentResponse "chainId";
          raw := paymentResponse |};
     resp_status := status response;
     resp_statusText := statusText response |}.

(** Line 181: [error.message || error.response?.data?.error || "Unknown error"].
    Reading a property of [undefined] or [null] throws a [TypeError]
    (the message is the engine's). *)
Definition errorMessage (error : JsValue) : Outcome JsValue :=
  if is_nullish error then
    Throw (JError "TypeError"
             ("Cannot read properties of " +:+ ToString error +:+ " (reading 'message')"))
  else
    Return
      (js_or
         (js_or (get_prop error "message")
                (opt_chain (opt_chain (get_prop error "response") "data") "error"))
         (JStr "Unknown error")).

(** Lines 179-183: the [catch] block. *)
Definition rethrow {A} (error : JsValue) : M A :=
  errorMessage <- lift (errorMessage error) ;;
  throw (new_Error ("X402 request failed: " +:+ ToString errorMessage)).

Definition callEndpoint (this : X402Agent) (url : string)
    (options : option X402RequestOptions) : M X402Response :=
  let options := default no_options options in
  let method := default "GET" (opt_method options) in
  let headers := default ∅ (opt_headers options) in
  let body := opt_body options in
  let parseJson := default true (opt_parseJson options) in
  fetchOptions <- lift (prepareFetchOptions method headers body) ;;
  try_catch
    (response <- call (EvFetchWithPayment url fetchOptions)
                      (fun t => fetchWithPayment this t url fetchOptions) ;;
     data <- lift (readBody parseJson response) ;;
     paymentResponse <- lift (decodePayment response) ;;
     ret (envelope data paymentResponse response))
    rethrow.

(** *** [callBuilderEndpoint] (lines 104-107) *)

Definition callBuilderEndpoint (this : X402Agent) (baseUrl : string) : M X402Response :=
  let url := baseUrl +:+ "/api/payment/builder" in
  callEndpoint this url
    (Some {| opt_method := Some "GET"; opt_headers := None;
             opt_body := JUndefined; opt_parseJson := None |}).

End Agent.

(** ** The console, and the script that drives the agent

    [logResponse] (the last method of the class) writes to the console,
    and [scripts/agentExample.ts] uses the class from a [main] function
    that also does.  The world of these two is the trace of calls
    together with what was written to the two console streams and the
    exit code of the process. *)

Record World : Type := {
  calls : Trace;
  stdout : list JsValue;
  stderr : list JsValue;
  exitCode : option Z;
}.

Definition IO (A : Type) : Type := World -> Outcome A * World.

Definition io_ret {A} (a : A) : IO A := fun w => (Return a, w).

Definition io_throw {A} (e : JsValue) : IO A := fun w => (Throw e, w).

Definition io_bind {A B} (m : IO A) (k : A -> IO B) : IO B :=
  fun w =>
    match m w with
    | (Return a, w') => k a w'
    | (Throw e, w') => (Throw e, w')
    end.

(** [try { m } catch (error) { h error }] *)
Definition io_try {A} (m : IO A) (h : JsValue -> IO A) : IO A :=
  fun w =>
    match m w with
    | (Return a, w') => (Return a, w')
    | (Throw e, w') => h e w'
    end.

Definition io_lift {A} (o : Outcome A) : IO A := fun w => (o, w).

(** A method of the agent, run in the world: it sees and extends the
    trace of calls, and nothing else. *)
Definition run {A} (m : M A) : IO A :=
  fun w =>
    let (o, t) := m (calls w) in
    (o, {| calls := t; stdout := stdout w; stderr := stderr w;
           exitCode := exitCode w |}).

(** [console.log(v)] and [console.error(v)], with one argument. *)
Definition console_log (v : JsValue) : IO unit :=
  fun w =>
    (Return tt, {| calls := calls w; stdout := stdout w ++ [v];
                   stderr := stderr w; exitCode := exitCode w |}).

Definition console_error (v : JsValue) : IO unit :=
  fun w =>
    (Return tt, {| calls := calls w; stdout := stdout w;
                   stderr := stderr w ++ [v]; exitCode := exitCode w |}).

(** [process.exitCode = n] *)
Definition set_exitCode (n : Z) : IO unit :=
  fun w =>
    (Return tt, {| calls := calls w; stdout := stdout w;
                   stderr := stderr w; exitCode := Some n |}).

Declare Scope io_scope.
Delimit Scope io_scope with io.
Notation "x <- m ;; k" := (io_bind m (fun x => k))
  (at level 100, m at next level, right associativity) : io_scope.

(** [s.repeat(n)] *)
Fixpoint str_repeat (s : string) (n : nat) : string :=
  match n with
  | O => ""
  | S n' => s +:+ str_repeat s n'
  end.

(** The line feed and the double quote of the string literals. *)
Definition nl : string := String "010"%char "".
Definition quot : string := String "034"%char "".

(** A value of type [string | undefined]. *)
Definition optional (s : option string) : JsValue :=
  match s with
  | Some s => JStr s
  | None => JUndefined
  end.

(** What the script finds around it: [process.env.BASE_URL], what
    [await getDecryptedPK()] gives (the function is imported from
    [./getDecryptedPK]; [None] stands for [undefined] or [null]), and
    [JSON.stringify(v, null, 2)] on a value that is not [undefined]. *)
Class Host : Type := {
  env_BASE_URL : option string;
  getDecryptedPK : Outcome (option string);
  JSON_stringify_indented : JsValue -> Outcome string;
}.

Section Script.

Context {rt : Runtime} {host : Host}.

Local Open Scope io_scope.

(** [JSON.stringify(v)] and [JSON.stringify(v, null, 2)] on any value:
    [undefined] is not serialized, the result is [undefined]. *)
Definition stringify_any (v : JsValue) : Outcome JsValue :=
  match v with
  | JUndefined => Return JUndefined
  | _ => match JSON_stringify v with
         | Return s => Return (JStr s)
         | Throw e => Throw e
         end
  end.

Definition stringify_indented_any (v : JsValue) : Outcome JsValue :=
  match v with
  | JUndefined => Return JUndefined
  | _ => match JSON_stringify_indented v with
         | Return s => Return (JStr s)
         | Throw e => Throw e
         end
  end.

(** [v.k] on any value: reading a property of [undefined] or [null]
    throws a [TypeError] (the message is the engine's). *)
Definition member (v : JsValue) (k : string) : Outcome JsValue :=
  if is_nullish v then
    Throw (JError "TypeError"
             ("Cannot read properties of " +:+ ToString v +:+
              " (reading '" +:+ k +:+ "')"))
  else Return (get_prop v k).

(** [v.includes(x)] for a string [x], where [v] was read as [path]: a
    substring test on a string, a membership test on an array; on
    [undefined] and [null] reading [includes] throws, and no other value
    has a function of that name. *)
Definition call_includes (path : string) (v : JsValue) (x : string) : Outcome bool :=
  match v with
  | JStr s => Return (includes s x)
  | JArr items =>
      Return (existsb (fun item => match item with
                                   | JStr s => String.eqb s x
                                   | _ => false
                                   end) items)
  | JUndefined | JNull =>
      Throw (JError "TypeError"
               ("Cannot read properties of " +:+ ToString v +:+
                " (reading 'includes')"))
  | _ => Throw (JError "TypeError" (path +:+ ".includes is not a function"))
  end.

(** A computation that makes no call: the trace is as it was. *)
Definition quiet {A} (m : IO A) : Prop :=
  ∀ w : World, calls (m w).2 = calls w.

(** A computation that leaves the error stream and the exit code as they
    were. *)
Definition steady {A} (m : IO A) : Prop :=
  ∀ w : World, stderr (m w).2 = stderr w ∧ exitCode (m w).2 = exitCode w.

(** *** [logResponse] (lines 201-219 of the class) *)

Definition logResponse (this : X402Agent) (response : X402Response)
    (customLabel : option string) : IO unit :=
  _ <- console_log (JStr (nl +:+ str_repeat "=" 60)) ;;
  _ <- console_log (js_or (optional customLabel) (JStr "X402 Response")) ;;
  _ <- console_log (JStr (str_repeat "=" 60)) ;;
  _ <- console_log (JStr (nl +:+ "ðŸ“¦ Response Data:")) ;;
  pretty_data <- io_lift (stringify_indented_any (data response)) ;;
  _ <- console_log pretty_data ;;
  _ <- console_log (JStr (nl +:+ "ðŸ’³ Payment Details:")) ;;
  _ <- console_log
         (JStr ("  Transaction Hash: " +:+
                ToString (js_or (txHash (payment response)) (JStr "N/A")))) ;;
  _ <- console_log
         (JStr ("  Amount: " +:+
                ToString (js_or (amount (payment response)) (JStr "N/A")) +:+ " wei")) ;;
  _ <- console_log
         (JStr ("  Recipient: " +:+
                ToString (js_or (recipient (payment response)) (JStr "N/A")))) ;;
  _ <- console_log
         (JStr ("  Chain ID: " +:+
                ToString (js_or (chainId (payment response)) (JStr "N/A")))) ;;
  _ <- console_log (JStr (nl +:+ "ðŸ“¡ HTTP Status:")) ;;
  _ <- console_log
         (JStr ("  " +:+ pretty (resp_status response) +:+ " " +:+
                resp_statusText response)) ;;
  console_log (JStr (nl +:+ str_repeat "=" 60 +:+ nl)).

(** *** [scripts/agentExample.ts] *)

(** Line 23: [process.env.BASE_URL || "http://localhost:3000"] *)
Definition BASE_URL : string :=
  match env_BASE_URL with
  | Some s => if String.eqb s "" then "http://localhost:3000" else s
  | None => "http://localhost:3000"
  end.

(** Lines 86-92: the [catch] block of [main]. *)
Definition main_catch (error : JsValue) : IO unit :=
  _ <- console_log (JStr (nl +:+ "❌ Agent encountered an error:")) ;;
  message <- io_lift (member error "message") ;;
  _ <- console_log (JStr ("   " +:+ ToString message)) ;;
  _ <- console_log
         (JStr (nl +:+ "🔄 Agent could retry or fall back to alternative action" +:+ nl)) ;;
  io_throw error.

(** Lines 47-85: the [try] block of [main]. *)
Definition main_try (agent : X402Agent) : IO unit :=
  _ <- console_log (JStr "⏳ Making x402-authenticated request...") ;;
  response <- run (callBuilderEndpoint agent BASE_URL) ;;
  _ <- logResponse agent response (Some "Builder Endpoint Response") ;;
  _ <- console_log (JStr "🔍 Agent Processing Response:") ;;
  message <- io_lift (member (data response) "message") ;;
  _ <- console_log
         (JStr ("  Message received: " +:+ quot +:+ ToString message +:+ quot)) ;;
  _ <- console_log
         (JStr ("  Payment confirmed: " +:+
                (if ToBoolean (txHash (payment response)) then "✅" else "❌"))) ;;
  _ <- (if ToBoolean (txHash (payment response)) then
          console_log
            (JStr ("  Transaction: " +:+ ToString (txHash (payment response))))
        else io_ret tt) ;;
  _ <- console_log (JStr (nl +:+ str_repeat "─" 60)) ;;
  _ <- console_log (JStr (nl +:+ "🎯 Advanced: Calling endpoint with generic method")) ;;
  genericResponse <-
    run (callEndpoint agent (BASE_URL +:+ "/api/payment/builder")
           (Some {| opt_method := Some "GET"; opt_headers := None;
                    opt_body := JUndefined; opt_parseJson := None |})) ;;
  _ <- console_log (JStr (nl +:+ "✅ Generic method successful!")) ;;
  serialized <- io_lift (stringify_any (data genericResponse)) ;;
  _ <- console_log (JStr ("   Response: " +:+ ToString serialized)) ;;
  _ <- console_log (JStr (nl +:+ str_repeat "─" 60)) ;;
  _ <- console_log (JStr (nl +:+ "🧠 Agent Decision Making:")) ;;
  message <- io_lift (member (data response) "message") ;;
  confirmed <- io_lift (call_includes "response.data.message" message "$0.01") ;;
  _ <- (if confirmed then
          _ <- console_log (JStr "   ✓ Detected payment confirmation in response") ;;
          _ <- console_log (JStr "   ✓ Agent confirms: Transaction successful") ;;
          console_log (JStr "   → Next action: Log completion and continue")
        else io_ret tt) ;;
  console_log (JStr (nl +:+ "✅ Agent task completed successfully!" +:+ nl)).

(** Lines 25-93: [main].  Past the test of line 33 the key is a string
    that is not empty, and it is the one handed to the constructor. *)
Definition main : IO unit :=
  _ <- console_log (JStr "🤖 AI Agent X402 Example") ;;
  _ <- console_log (JStr ("=" +:+ str_repeat "=" 59 +:+ nl)) ;;
  _ <- console_log (JStr "🔐 Loading agent credentials...") ;;
  privateKey <- io_lift getDecryptedPK ;;
  if negb (ToBoolean (optional privateKey)) then
    console_log (JStr "❌ Failed to load private key. Exiting.")
  else
    _ <- console_log (JStr "✅ Credentials loaded successfully") ;;
    agent <- run (new_X402Agent (default "" privateKey)) ;;
    agent_address <- run (address agent) ;;
    _ <- console_log (JStr ("📍 Agent address: " +:+ agent_address +:+ nl)) ;;
    _ <- console_log
           (JStr "🎯 Agent Task: Retrieve protected content from builder endpoint") ;;
    _ <- console_log
           (JStr ("📡 Target: " +:+ BASE_URL +:+ "/api/payment/builder" +:+ nl)) ;;
    io_try (main_try agent) main_catch.

(** Lines 212-215: [main().catch(error => { ... })].  The promise this
    gives never rejects. *)
Definition script : IO unit :=
  io_try main
    (fun error =>
       _ <- console_error error ;;
       set_exitCode 1).

End Script.

(** ** A test double for the outside world

    A mock transport in the style of the scenarios of the documentation:
    a paid endpoint, a free one, a missing page, a server that sends an
    unreadable payment header, and an unreachable host. *)
Module Mock.

(** The first development account of a local Hardhat node. *)
Definition key : string :=
  "0xac0974bec39a17e36ba4a6b4d238ff944bacb478cbed5efcae784d7bf4f2ff80".

Definition wallet : Account :=
  {| account_address := "0xf39Fd6e51aad88F6F4ce6aB8827279cffFb92266" |}.

Definition dq : string := String "034"%char "".

(** Decimal printing of a double; exact on integers of magnitude below
    [2^53], which is all the examples use (the integer part otherwise). *)
Definition number_toString (n : float) : string :=
  match Prim2SF n with
  | S754_nan => "NaN"
  | S754_infinity false => "Infinity"
  | S754_infinity true => "-Infinity"
  | S754_zero _ => "0"
  | S754_finite s m e =>
      let mag :=
        match e with
        | Z0 => Zpos m
        | Zpos p => (Zpos m * 2 ^ Zpos p)%Z
        | Zneg p => (Zpos m / 2 ^ Zpos p)%Z
        end in
      pretty (if s then (- mag)%Z else mag)
  end.

(** Serialization of plain data, as [JSON.stringify] does it on a value
    that is not [undefined]: a member whose value is [undefined] is left
    out, an [undefined] item prints as [null], an error has no
    enumerable member.  Strings are not escaped: the examples have no
    character that needs it. *)
Fixpoint stringify (v : JsValue) : string :=
  match v with
  | JUndefined | JNull => "null"
  | JBool true => "true"
  | JBool false => "false"
  | JNum n => if is_finite n then number_toString n else "null"
  | JStr s => dq +:+ s +:+ dq
  | JArr items => "[" +:+ join "," (map stringify items) +:+ "]"
  | JObj props =>
      let members :=
        fix members (ps : list (string * JsValue)) : list string :=
          match ps with
          | [] => []
          | (_, JUndefined) :: rest => members rest
          | (k, x) :: rest => (dq +:+ k +:+ dq +:+ ":" +:+ stringify x) :: members rest
          end in
      "{" +:+ join "," (members props) +:+ "}"
  | JError _ _ => "{}"
  end.

(** The payment of the documented scenario, and its header: the base64
    text of its JSON form. *)
Definition receipt : JsValue :=
  JObj [("txHash", JStr "0xabc"); ("amount", JStr "10000000000000");
        ("recipient", JStr "0x5678"); ("chainId", JNum 84532)].

Definition receipt_header : string :=
  "eyJ0eEhhc2giOiIweGFiYyIsImFtb3VudCI6IjEwMDAwMDAwMDAwMDAwIiwicmVjaXBpZW50IjoiMHg1Njc4IiwiY2hhaW5JZCI6ODQ1MzJ9".

(** A settlement as [x402] reports it, with none of the four fields the
    envelope looks for, and its header. *)
Definition settlement : JsValue :=
  JObj [("success", JBool true); ("transaction", JStr "0xabc");
        ("network", JStr "base-sepolia"); ("payer", JStr "0x1234")].

Definition settlement_header : string :=
  "eyJzdWNjZXNzIjp0cnVlLCJ0cmFuc2FjdGlvbiI6IjB4YWJjIiwibmV0d29yayI6ImJhc2Utc2Vwb2xpYSIsInBheWVyIjoiMHgxMjM0In0=".

Definition decode (header : string) : Outcome JsValue :=
  if String.eqb header receipt_header then Return receipt
  else if String.eqb header settlement_header then Return settlement
  else Throw (JError "SyntaxError" "Unexpected token in JSON at position 0").

Definition reply (code : Z) (reason : string) (paymentHeader : option string)
    (body : JsValue) : Response :=
  {| status := code;
     statusText := reason;
     headers_get := fun name =>
       if String.eqb name "x-payment-response" then paymentHeader else None;
     json := Return body;
     text := Return (stringify body) |}.

Definition transport : FetchFn := fun _ url _ =>
  if String.eqb url "http://x/api/payment/builder" then
    Return (reply 200 "OK" (Some receipt_header) (JObj [("message", JStr "ok")]))
  else if String.eqb url "http://x/api/payment/chat" then
    Return (reply 200 "OK" (Some receipt_header) (JObj [("messages", JArr [])]))
  else if String.eqb url "http://x/api/payment/store" then
    Return (reply 200 "OK" (Some settlement_header) (JStr "PK"))
  else if String.eqb url "http://x/free" then
    Return (reply 200 "OK" None (JObj [("message", JStr "free")]))
  else if String.eqb url "http://x/missing" then
    Return (reply 404 "Not Found" None (JObj [("error", JStr "no such page")]))
  else if String.eqb url "http://x/garbled" then
    Return (reply 200 "OK" (Some "not-base64") (JObj [("message", JStr "ok")]))
  else
    Throw (JError "TypeError" "fetch failed").

Definition runtime : Runtime :=
  {| privateKeyToAccount := fun privateKey =>
       if String.eqb privateKey key then Return wallet
       else Throw (JError "InvalidPrivateKeyError" "invalid private key");
     wrapFetchWithPayment := fun _ => transport;
     decodeXPaymentResponse := decode;
     JSON_stringify := fun v => Return (stringify v);
     Number_toString := number_toString |}.

Definition agent : X402Agent :=
  {| account := wallet; fetchWithPayment := transport |}.

(** A chat request whose caller asks for [text/plain]. *)
Definition chat_options : X402RequestOptions :=
  {| opt_method := Some "POST";
     opt_headers := Some {[ "Content-Type" := "text/plain" ]};
     opt_body := JObj [("messages", JArr [])];
     opt_parseJson := None |}.

(** [{ parseJson: false }] *)
Definition text_options : X402RequestOptions :=
  {| opt_method := None; opt_headers := None;
     opt_body := JUndefined; opt_parseJson := Some false |}.

(** [{ body: v }] *)
Definition body_options (v : JsValue) : X402RequestOptions :=
  {| opt_method := None; opt_headers := None;
     opt_body := v; opt_parseJson := None |}.

(** The request of a call without options. *)
Definition plain_get : RequestInit :=
  {| ri_method := "GET"; ri_headers := Some ∅; ri_body := None |}.

(** The answers of the transport to that request. *)
Definition paid_reply : Response :=
  reply 200 "OK" (Some receipt_header) (JObj [("message", JStr "ok")]).

Definition free_reply : Response :=
  reply 200 "OK" None (JObj [("message", JStr "free")]).

Definition missing_reply : Response :=
  reply 404 "Not Found" None (JObj [("error", JStr "no such page")]).

Definition garbled_reply : Response :=
  reply 200 "OK" (Some "not-base64") (JObj [("message", JStr "ok")]).

End Mock.

(** ** A test double for what surrounds the script *)
Module Demo.

(** [JSON.stringify(v, null, 2)] on plain data: members and items on
    lines of their own, two spaces deeper at each level; an array or an
    object with nothing to print stays on one line.  Strings are not
    escaped. *)
Fixpoint indented (indent : string) (v : JsValue) : string :=
  let deeper := indent +:+ "  " in
  match v with
  | JArr [] => "[]"
  | JArr items =>
      "[" +:+ nl +:+
      join ("," +:+ nl) (map (fun x => deeper +:+ indented deeper x) items) +:+
      nl +:+ indent +:+ "]"
  | JObj props =>
      let members :=
        fix members (ps : list (string * JsValue)) : list string :=
          match ps with
          | [] => []
          | (_, JUndefined) :: rest => members rest
          | (k, x) :: rest =>
              (deeper +:+ quot +:+ k +:+ quot +:+ ": " +:+ indented deeper x)
                :: members rest
          end in
      match members props with
      | [] => "{}"
      | ms => "{" +:+ nl +:+ join ("," +:+ nl) ms +:+ nl +:+ indent +:+ "}"
      end
  | _ => Mock.stringify v
  end.

(** A host with a given [BASE_URL] and a given answer of
    [getDecryptedPK]. *)
Definition host_with (base : option string) (key : option string) : Host :=
  {| env_BASE_URL := base;
     getDecryptedPK := Return key;
     JSON_stringify_indented := fun v => Return (indented "" v) |}.

(** The server of the mock transport, and the development key. *)
Definition host : Host := host_with (Some "http://x") (Some Mock.key).

(** The same key without its prefix. *)
Definition bare_key : string :=
  "ac0974bec39a17e36ba4a6b4d238ff944bacb478cbed5efcae784d7bf4f2ff80".

(** A runtime like the mock one, with another transport, and whose
    serializer refuses the values [refused] holds for (in JavaScript: a
    cyclic object, or one that holds a [BigInt]). *)
Definition runtime_with (transport : FetchFn) (refused : JsValue -> bool) : Runtime :=
  {| privateKeyToAccount := privateKeyToAccount (Runtime := Mock.runtime);
     wrapFetchWithPayment := fun _ => transport;
     decodeXPaymentResponse := Mock.decode;
     JSON_stringify := fun v =>
       if refused v
       then Throw (JError "TypeError" "Converting circular structure to JSON")
       else Return (Mock.stringify v);
     Number_toString := Mock.number_toString |}.

(** Refuses the objects that have a member [self]. *)
Definition has_self (v : JsValue) : bool :=
  match v with
  | JObj props => negb (is_nullish (assoc "self" props))
  | _ => false
  end.

Definition strict_runtime : Runtime := runtime_with Mock.transport has_self.

(** [{ body: { self: {} } }] *)
Definition self_options : X402RequestOptions :=
  Mock.body_options (JObj [("self", JObj [])]).

(** An agent whose transport rejects with [what]. *)
Definition rejecting (what : JsValue) : X402Agent :=
  {| account := Mock.wallet; fetchWithPayment := fun _ _ _ => Throw what |}.

(** What an HTTP client library throws: no [message], the answer of the
    server under [response.data]. *)
Definition quota_error : JsValue :=
  JObj [("response", JObj [("data", JObj [("error", JStr "quota exceeded")])])].

(** A server that wants to be paid and is not: status 402 and an error
    object, for every address. *)
Definition unpaid_transport : FetchFn := fun _ _ _ =>
  Return (Mock.reply 402 "Payment Required" None
            (JObj [("error", JStr "payment required")])).

Definition unpaid_runtime : Runtime := runtime_with unpaid_transport (fun _ => false).

(** A host whose indenting serializer refuses the same values. *)
Definition strict_host : Host :=
  {| env_BASE_URL := Some "http://x";
     getDecryptedPK := Return (Some Mock.key);
     JSON_stringify_indented := fun v =>
       if has_self v
       then Throw (JError "TypeError" "Converting circular structure to JSON")
       else Return (indented "" v) |}.

(** An agent whose transport answers [r] to everything. *)
Definition answering (r : Response) : X402Agent :=
  {| account := Mock.wallet; fetchWithPayment := fun _ _ _ => Return r |}.

(** An answer with an empty payment header. *)
Definition blank_reply : Response :=
  Mock.reply 200 "OK" (Some "") (JObj [("message", JStr "ok")]).

(** A world in which nothing has happened yet. *)
Definition boot : World :=
  {| calls := []; stdout := []; stderr := []; exitCode := None |}.

(** An envelope without payment, as a free endpoint gives it. *)
Definition unpaid : X402Response :=
  {| data := JObj [("message", JStr "free")];
     payment := {| txHash := JUndefined; amount := JUndefined;
                   recipient := JUndefined; chainId := JUndefined;
                   raw := JNull |};
     resp_status := 200;
     resp_statusText := "OK" |}.

(** An envelope whose payment fields are there, and falsy. *)
Definition zeroes : X402Response :=
  {| data := JNull;
     payment := {| txHash := JStr ""; amount := JStr "";
                   recipient := JNull; chainId := JNum 0;
                   raw := JObj [("chainId", JNum 0)] |};
     resp_status := 200;
     resp_statusText := "OK" |}.

(** An envelope whose data the strict serializer refuses. *)
Definition knotted : X402Response :=
  {| data := JObj [("self", JObj [])];
     payment := {| txHash := JStr "0xabc"; amount := JUndefined;
                   recipient := JUndefined; chainId := JUndefined;
                   raw := JNull |};
     resp_status := 200;
     resp_statusText := "OK" |}.

End Demo.


(** * Properties *)

(** ** Strings *)

Lemma startsWith_app (p rest : string) : startsWith (p +:+ rest) p = true.
Proof.
  induction p as [|c p IH]; simpl; [done|].
  by rewrite Ascii.eqb_refl, IH.
Qed.

Lemma append_empty_r (s : string) : s +:+ "" = s.
Proof.
  induction s as [|c s IH]; [done|].
  change (String c (s +:+ "") = String c s). by rewrite IH.
Qed.

Lemma includes_self (s : string) : includes s s = true.
Proof.
  pose proof (startsWith_app s "") as H. rewrite append_empty_r in H.
  destruct s; simpl in *; [done | by rewrite H].
Qed.

Lemma includes_suffix (before sub : string) : includes (before +:+ sub) sub = true.
Proof.
  induction before as [|c before IH].
  - apply includes_self.
  - change (includes (String c (before +:+ sub)) sub = true).
    simpl. rewrite IH. apply orb_true_r.
Qed.

Lemma includes_empty (s : string) : includes s "" = true.
Proof. by destruct s. Qed.

(** ** JavaScript values *)

Lemma object_truthy (v : JsValue) :
  typeof v = "object" → v ≠ JNull → ToBoolean v = true.
Proof. by destruct v. Qed.

Lemma assoc_absent (k : string) (props : list (string * JsValue)) :
  k ∉ props.*1 → assoc k props = JUndefined.
Proof.
  induction props as [|[k' v] props IH]; simpl; [done|].
  intros Hk. apply not_elem_of_cons in Hk as [Hne Hk].
  destruct (String.eqb_spec k k'); [done | auto].
Qed.

Lemma message_not_nullish (e : JsValue) (m : string) :
  get_prop e "message" = JStr m → is_nullish e = false.
Proof. by destruct e. Qed.

(** The falsy values, one of each kind. *)
Lemma falsy_values :
  Forall (λ v, ToBoolean v = false)
    [JStr ""; JNum 0; JNum (-0); JBool false; JNum nan; JNull; JUndefined].
Proof. repeat constructor. Qed.

(** ** The agent *)

Section Properties.

Context {rt : Runtime}.

Implicit Types (this : X402Agent) (url : string) (o : X402RequestOptions)
  (t : Trace) (fo : RequestInit) (r : Response).

(** The request built from an options record, after the defaults of
    line 134. *)
Abbreviation request_of o :=
  (prepareFetchOptions (default "GET" (opt_method o))
     (default ∅ (opt_headers o)) (opt_body o)).

Abbreviation parseJson_of o := (default true (opt_parseJson o)).

Ltac run := unfold callEndpoint, bind, try_catch, call, lift, ret, throw; simpl.

(** *** Building the request *)

Lemma prepare_object (method : string) (headers : gmap string string)
    (body : JsValue) (s : string) :
  typeof body = "object" → body ≠ JNull → JSON_stringify body = Return s →
  prepareFetchOptions method headers body =
    Return {| ri_method := method;
              ri_headers := Some (<["Content-Type" := "application/json"]> headers);
              ri_body := Some (JStr s) |}.
Proof.
  intros Hty Hnn Hs. unfold prepareFetchOptions.
  by rewrite (object_truthy _ Hty Hnn), Hty, Hs.
Qed.

Lemma prepare_falsy (method : string) (headers : gmap string string) (body : JsValue) :
  ToBoolean body = false →
  prepareFetchOptions method headers body =
    Return {| ri_method := method; ri_headers := Some headers; ri_body := None |}.
Proof. intros Hb. unfold prepareFetchOptions. by rewrite Hb. Qed.

Lemma prepare_primitive (method : string) (headers : gmap string string) (body : JsValue) :
  ToBoolean body = true → typeof body ≠ "object" →
  prepareFetchOptions method headers body =
    Return {| ri_method := method; ri_headers := Some headers; ri_body := Some body |}.
Proof.
  intros Hb Hty. unfold prepareFetchOptions. rewrite Hb.
  by destruct (String.eqb_spec (typeof body) "object").
Qed.

(** *** One call, step by step *)

(** Once the request is built, exactly one event is appended to the
    trace, whatever happens next. *)
Lemma callEndpoint_trace this url o t fo :
  request_of o = Return fo →
  (callEndpoint this url (Some o) t).2 = t ++ [EvFetchWithPayment url fo].
Proof.
  intros Hfo. run. rewrite Hfo.
  destruct (fetchWithPayment this t url fo) as [r|e]; simpl.
  - destruct (readBody _ r); simpl; [destruct (decodePayment r); simpl|];
      try done; unfold rethrow, bind, lift, throw; by destruct (errorMessage _).
  - unfold rethrow, bind, lift, throw; by destruct (errorMessage _).
Qed.

(** The three steps of the [try] block all succeed. *)
Lemma callEndpoint_returns this url o t fo r (d p : JsValue) :
  request_of o = Return fo →
  fetchWithPayment this t url fo = Return r →
  readBody (parseJson_of o) r = Return d →
  decodePayment r = Return p →
  callEndpoint this url (Some o) t =
    (Return (envelope d p r), t ++ [EvFetchWithPayment url fo]).
Proof. intros Hfo Hr Hd Hp. run. by rewrite Hfo, Hr; simpl; rewrite Hd, Hp. Qed.

(** One of them throws: the [catch] block runs on what was thrown. *)
Lemma callEndpoint_catches this url o t fo (e : JsValue) :
  request_of o = Return fo →
  fetchWithPayment this t url fo = Throw e
  ∨ (∃ r, fetchWithPayment this t url fo = Return r
          ∧ readBody (parseJson_of o) r = Throw e)
  ∨ (∃ r d, fetchWithPayment this t url fo = Return r
            ∧ readBody (parseJson_of o) r = Return d
            ∧ decodePayment r = Throw e) →
  callEndpoint this url (Some o) t =
    rethrow e (t ++ [EvFetchWithPayment url fo]).
Proof.
  intros Hfo [Hr | [(r & Hr & Hd) | (r & d & Hr & Hd & Hp)]]; run;
    rewrite Hfo, Hr; simpl; rewrite ?Hd, ?Hp; done.
Qed.

(** The [catch] block on a value that has a [message]. *)
Lemma rethrow_message {A} (e : JsValue) (m : string) t :
  get_prop e "message" = JStr m →
  ∃ s, rethrow (A := A) e t = (Throw (new_Error ("X402 request failed: " +:+ s)), t)
       ∧ includes s m = true
       ∧ (m ≠ "" → s = m).
Proof.
  intros Hm. unfold rethrow, bind, lift, throw, errorMessage.
  rewrite (message_not_nullish _ _ Hm), Hm. unfold js_or at 2.
  destruct (ToBoolean (JStr m)) eqn:Hb.
  - exists m. unfold js_or. rewrite Hb. simpl. by rewrite includes_self.
  - simpl in Hb. destruct m; [|done]. eexists. split; [done|].
    split; [apply includes_empty | done].
Qed.

(** A missing or empty payment header decodes to [null] ... *)
Lemma decodePayment_absent r :
  headers_get r "x-payment-response" = None → decodePayment r = Return JNull.
Proof. intros H. unfold decodePayment. by rewrite H. Qed.

Lemma decodePayment_empty r :
  headers_get r "x-payment-response" = Some "" → decodePayment r = Return JNull.
Proof. intros H. unfold decodePayment. by rewrite H. Qed.

(** ... so an empty header gives the same envelope as no header. *)
Lemma callEndpoint_empty_payment_header this url o t fo r (d : JsValue) :
  request_of o = Return fo →
  fetchWithPayment this t url fo = Return r →
  readBody (parseJson_of o) r = Return d →
  headers_get r "x-payment-response" = Some "" →
  (callEndpoint this url (Some o) t).1 = Return (envelope d JNull r).
Proof.
  intros Hfo Hr Hd Hh.
  by rewrite (callEndpoint_returns _ _ _ _ _ _ _ _ Hfo Hr Hd (decodePayment_empty _ Hh)).
Qed.

(** ... and any other one to what the decoder makes of it. *)
Lemma decodePayment_present r (h : string) :
  headers_get r "x-payment-response" = Some h → h ≠ "" →
  decodePayment r = decodeXPaymentResponse h.
Proof.
  intros H Hne. unfold decodePayment. rewrite H. by destruct h.
Qed.

(** *** The request that is sent *)

(** C1 (amended).  When [options.body] is an object, the request handed
    to the payment-capable fetch has the JSON serialization of that
    object as its body, and its [Content-Type] header is
    [application/json] whatever the caller supplied under that name;
    every other header is the caller's. *)
Theorem callEndpoint_object_body_request this url o t (s : string) :
  typeof (opt_body o) = "object" → opt_body o ≠ JNull →
  JSON_stringify (opt_body o) = Return s →
  ∃ h : gmap string string,
    (callEndpoint this url (Some o) t).2 =
      t ++ [EvFetchWithPayment url
              {| ri_method := default "GET" (opt_method o);
                 ri_headers := Some h;
                 ri_body := Some (JStr s) |}]
    ∧ h !! "Content-Type" = Some "application/json"
    ∧ ∀ name, name ≠ "Content-Type" →
        h !! name = default ∅ (opt_headers o) !! name.
Proof.
  intros Hty Hnn Hs.
  exists (<["Content-Type" := "application/json"]> (default ∅ (opt_headers o))).
  split; [|split].
  - apply callEndpoint_trace. by apply prepare_object.
  - apply lookup_insert_eq.
  - intros name Hne. by apply lookup_insert_ne.
Qed.

(** C10.  A falsy [options.body] (the empty string, [0], [-0], [false],
    [NaN], [null], as well as [undefined]) is dropped: the request has
    no body, and its headers are exactly the caller's, with no
    [Content-Type] added. *)
Theorem callEndpoint_falsy_body_dropped this url o t :
  ToBoolean (opt_body o) = false →
  (callEndpoint this url (Some o) t).2 =
    t ++ [EvFetchWithPayment url
            {| ri_method := default "GET" (opt_method o);
               ri_headers := Some (default ∅ (opt_headers o));
               ri_body := None |}].
Proof. intros Hb. apply callEndpoint_trace. by apply prepare_falsy. Qed.

(** *** The envelope *)

(** C2.  When the final response has no [x-payment-response] header,
    the envelope has [payment.raw = null], the four payment fields are
    [undefined], and [status] and [statusText] are those of the
    response. *)
Theorem callEndpoint_no_payment_header this url o t fo r (d : JsValue) :
  request_of o = Return fo →
  fetchWithPayment this t url fo = Return r →
  readBody (parseJson_of o) r = Return d →
  headers_get r "x-payment-response" = None →
  ∃ e : X402Response,
    (callEndpoint this url (Some o) t).1 = Return e
    ∧ raw (payment e) = JNull
    ∧ txHash (payment e) = JUndefined
    ∧ amount (payment e) = JUndefined
    ∧ recipient (payment e) = JUndefined
    ∧ chainId (payment e) = JUndefined
    ∧ resp_status e = status r
    ∧ resp_statusText e = statusText r.
Proof.
  intros Hfo Hr Hd Hh. exists (envelope d JNull r).
  rewrite (callEndpoint_returns _ _ _ _ _ _ _ _ Hfo Hr Hd (decodePayment_absent _ Hh)).
  by repeat split.
Qed.

(** C3.  When the final response has a non-empty [x-payment-response]
    header that the decoder turns into an object, [payment.raw] is that
    object and each of [txHash], [amount], [recipient], [chainId] is the
    object's field of that name; a field the object does not have is
    [undefined] in the envelope. *)
Theorem callEndpoint_payment_fields this url o t fo r (d : JsValue)
    (h : string) (props : list (string * JsValue)) :
  request_of o = Return fo →
  fetchWithPayment this t url fo = Return r →
  readBody (parseJson_of o) r = Return d →
  headers_get r "x-payment-response" = Some h → h ≠ "" →
  decodeXPaymentResponse h = Return (JObj props) →
  ∃ e : X402Response,
    (callEndpoint this url (Some o) t).1 = Return e
    ∧ raw (payment e) = JObj props
    ∧ txHash (payment e) = assoc "txHash" props
    ∧ amount (payment e) = assoc "amount" props
    ∧ recipient (payment e) = assoc "recipient" props
    ∧ chainId (payment e) = assoc "chainId" props
    ∧ ("txHash" ∉ props.*1 → txHash (payment e) = JUndefined)
    ∧ ("amount" ∉ props.*1 → amount (payment e) = JUndefined)
    ∧ ("recipient" ∉ props.*1 → recipient (payment e) = JUndefined)
    ∧ ("chainId" ∉ props.*1 → chainId (payment e) = JUndefined).
Proof.
  intros Hfo Hr Hd Hh Hne Hp. exists (envelope d (JObj props) r).
  assert (Hdec : decodePayment r = Return (JObj props))
    by (by rewrite (decodePayment_present _ _ Hh Hne)).
  rewrite (callEndpoint_returns _ _ _ _ _ _ _ _ Hfo Hr Hd Hdec). simpl.
  repeat split; try done; apply assoc_absent.
Qed.

(** C7 (amended).  When the fetch returns a response, of whatever
    status, the body is decoded, and the payment header, if there is a
    non-empty one, is decoded too, [callEndpoint] returns an envelope
    with the [status] and [statusText] of the response, and one request
    has been made. *)
Theorem callEndpoint_passes_status_through this url o t fo r (d : JsValue) :
  request_of o = Return fo →
  fetchWithPayment this t url fo = Return r →
  readBody (parseJson_of o) r = Return d →
  (∀ h, headers_get r "x-payment-response" = Some h → h ≠ "" →
        ∃ p, decodeXPaymentResponse h = Return p) →
  ∃ e : X402Response,
    callEndpoint this url (Some o) t = (Return e, t ++ [EvFetchWithPayment url fo])
    ∧ data e = d
    ∧ resp_status e = status r
    ∧ resp_statusText e = statusText r.
Proof.
  intros Hfo Hr Hd Hdec.
  assert (∃ p, decodePayment r = Return p) as [p Hp].
  { destruct (headers_get r "x-payment-response") as [h|] eqn:Hh.
    - destruct (decide (h = "")) as [->|Hne].
      + exists JNull. by apply decodePayment_empty.
      + destruct (Hdec h eq_refl Hne) as [p Hp]. exists p.
        by rewrite (decodePayment_present _ _ Hh Hne).
    - exists JNull. by apply decodePayment_absent. }
  exists (envelope d p r).
  by rewrite (callEndpoint_returns _ _ _ _ _ _ _ _ Hfo Hr Hd Hp).
Qed.

(** *** Failures *)

(** C6.  When the fetch, or the decoding of the body, throws an error,
    [callEndpoint] throws one error whose message is
    ["X402 request failed: "] followed by a text that contains the
    message of the original error; nothing is returned, and the fetch
    has been called once. *)
Theorem callEndpoint_wraps_errors this url o t fo (e : JsValue) (m : string) :
  request_of o = Return fo →
  fetchWithPayment this t url fo = Throw e
  ∨ (∃ r, fetchWithPayment this t url fo = Return r
          ∧ readBody (parseJson_of o) r = Throw e) →
  get_prop e "message" = JStr m →
  ∃ s : string,
    callEndpoint this url (Some o) t =
      (Throw (new_Error ("X402 request failed: " +:+ s)),
       t ++ [EvFetchWithPayment url fo])
    ∧ includes ("X402 request failed: " +:+ s) m = true
    ∧ (m ≠ "" → s = m).
Proof.
  intros Hfo Hfail Hm.
  destruct (rethrow_message (A := X402Response) e m
              (t ++ [EvFetchWithPayment url fo]) Hm) as (s & Hs & Hin & Heq).
  exists s. split; [|split; [|done]].
  - etransitivity; [|exact Hs]. apply callEndpoint_catches; [done|].
    destruct Hfail as [?|?]; auto.
  - destruct (decide (m = "")) as [->|Hne]; [apply includes_empty|].
    rewrite (Heq Hne). apply includes_suffix.
Qed.

(** *** Defaults *)


(** *** The builder endpoint *)

(** C4.  [callBuilderEndpoint(baseUrl)] is
    [callEndpoint(baseUrl + "/api/payment/builder", {method: "GET"})]:
    same envelope or same error, same trace, for every agent and every
    state of the world; what it sends is one [GET] to that address,
    without headers and without body. *)
Theorem callBuilderEndpoint_is_callEndpoint this (baseUrl : string) t :
  callBuilderEndpoint this baseUrl t =
    callEndpoint this (baseUrl +:+ "/api/payment/builder")
      (Some {| opt_method := Some "GET"; opt_headers := None;
               opt_body := JUndefined; opt_parseJson := None |}) t
  ∧ (callBuilderEndpoint this baseUrl t).2 =
      t ++ [EvFetchWithPayment (baseUrl +:+ "/api/payment/builder")
              {| ri_method := "GET"; ri_headers := Some ∅; ri_body := None |}].
Proof.
  split; [reflexivity|].
  unfold callBuilderEndpoint. by apply callEndpoint_trace.
Qed.

(** *** Construction and identity *)

(** C5.  A key that does not start with ["0x"] makes the constructor
    throw [Error("Private key must start with 0x")] before anything is
    derived or built (the trace is unchanged).  That check is all the
    constructor validates: with the prefix, the outcome is that of
    [privateKeyToAccount]. *)
Theorem constructor_prefix_check (privateKey : string) t :
  (startsWith privateKey "0x" = false →
   new_X402Agent privateKey t =
     (Throw (new_Error "Private key must start with 0x"), t))
  ∧ (startsWith privateKey "0x" = true →
     new_X402Agent privateKey t =
       match privateKeyToAccount privateKey with
       | Return a =>
           (Return {| account := a; fetchWithPayment := wrapFetchWithPayment a |},
            t ++ [EvPrivateKeyToAccount privateKey] ++ [EvWrapFetchWithPayment a])
       | Throw e => (Throw e, t ++ [EvPrivateKeyToAccount privateKey])
       end).
Proof.
  split; intros H; unfold new_X402Agent; rewrite H; simpl; [done|].
  unfold bind, call, ret.
  destruct (privateKeyToAccount privateKey); [|done].
  by rewrite <- app_assoc.
Qed.

(** C8.  Two agents constructed from the same key, at any two moments,
    have the same address: the constructor keeps the account that
    [privateKeyToAccount] derives from the key, and reading [address]
    returns the address of that account, in every state of the world,
    and leaves the world as it was. *)
Theorem address_deterministic (privateKey : string) (t1 t2 t1' t2' : Trace)
    (a1 a2 : X402Agent) :
  new_X402Agent privateKey t1 = (Return a1, t1') →
  new_X402Agent privateKey t2 = (Return a2, t2') →
  ∃ acct : Account,
    privateKeyToAccount privateKey = Return acct
    ∧ ∀ u1 u2 : Trace,
        address a1 u1 = (Return (account_address acct), u1)
        ∧ address a2 u2 = (Return (account_address acct), u2).
Proof.
  unfold new_X402Agent, bind, call, ret, throw.
  destruct (startsWith privateKey "0x"); simpl; [|done].
  destruct (privateKeyToAccount privateKey) as [a|e]; [|done].
  intros [= <- _] [= <- _]. by exists a.
Qed.

End Properties.

(** * The properties on the test double *)

(** A [POST] to the chat endpoint with an object body and a caller who
    asked for [text/plain]. *)
Lemma callEndpoint_object_body_request_witness :
  typeof (opt_body Mock.chat_options) = "object"
  ∧ opt_body Mock.chat_options ≠ JNull
  ∧ ∃ h : gmap string string,
      (callEndpoint (rt := Mock.runtime) Mock.agent "http://x/api/payment/chat"
         (Some Mock.chat_options) []).2 =
        [] ++ [EvFetchWithPayment "http://x/api/payment/chat"
                 {| ri_method := "POST";
                    ri_headers := Some h;
                    ri_body := Some (JStr (Mock.stringify (JObj [("messages", JArr [])]))) |}]
      ∧ h !! "Content-Type" = Some "application/json"
      ∧ ∀ name, name ≠ "Content-Type" →
          h !! name = ({[ "Content-Type" := "text/plain" ]} : gmap string string) !! name.
Proof.
  split; [reflexivity|]. split; [discriminate|].
  apply (callEndpoint_object_body_request (rt := Mock.runtime) Mock.agent
           "http://x/api/payment/chat" Mock.chat_options []);
    [reflexivity | discriminate | reflexivity].
Defined.

(** The caller's [text/plain] does not survive: the request says
    [application/json]. *)
Lemma callEndpoint_overwrites_caller_content_type :
  opt_headers Mock.chat_options ≫= (.!! "Content-Type") = Some "text/plain"
  ∧ ∃ init : RequestInit,
      (callEndpoint (rt := Mock.runtime) Mock.agent "http://x/api/payment/chat"
         (Some Mock.chat_options) []).2 =
        [EvFetchWithPayment "http://x/api/payment/chat" init]
      ∧ ri_headers init ≫= (.!! "Content-Type") = Some "application/json"
      ∧ ri_headers init ≫= (.!! "Content-Type") ≠ Some "text/plain".
Proof.
  split; [reflexivity|].
  eexists. split; [reflexivity|]. split; [reflexivity | discriminate].
Qed.

(** Each of the falsy bodies a caller may well supply: nothing is sent
    as a body. *)
Lemma callEndpoint_falsy_body_dropped_witness :
  Forall (λ v,
    v ≠ JUndefined
    ∧ ToBoolean v = false
    ∧ (callEndpoint (rt := Mock.runtime) Mock.agent "http://x/free"
         (Some (Mock.body_options v)) []).2 =
        [] ++ [EvFetchWithPayment "http://x/free" Mock.plain_get])
    [JStr ""; JNum 0; JBool false; JNum nan; JNull].
Proof.
  repeat (constructor;
          [split; [discriminate | split; [reflexivity |]];
           apply (callEndpoint_falsy_body_dropped (rt := Mock.runtime));
           reflexivity |]).
  constructor.
Defined.

(** A free endpoint: no payment header, no payment fields. *)
Lemma callEndpoint_no_payment_header_witness :
  headers_get Mock.free_reply "x-payment-response" = None
  ∧ ∃ e : X402Response,
      (callEndpoint (rt := Mock.runtime) Mock.agent "http://x/free"
         (Some no_options) []).1 = Return e
      ∧ raw (payment e) = JNull
      ∧ txHash (payment e) = JUndefined
      ∧ amount (payment e) = JUndefined
      ∧ recipient (payment e) = JUndefined
      ∧ chainId (payment e) = JUndefined
      ∧ resp_status e = 200%Z
      ∧ resp_statusText e = "OK".
Proof.
  split; [reflexivity|].
  apply (callEndpoint_no_payment_header (rt := Mock.runtime) Mock.agent
           "http://x/free" no_options [] Mock.plain_get Mock.free_reply
           (JObj [("message", JStr "free")])); reflexivity.
Defined.

(** The paid endpoint: the four fields of the receipt. *)
Lemma callEndpoint_payment_fields_witness :
  headers_get Mock.paid_reply "x-payment-response" = Some Mock.receipt_header
  ∧ Mock.receipt_header ≠ ""
  ∧ ∃ e : X402Response,
      (callEndpoint (rt := Mock.runtime) Mock.agent "http://x/api/payment/builder"
         (Some no_options) []).1 = Return e
      ∧ raw (payment e) = Mock.receipt
      ∧ txHash (payment e) = JStr "0xabc"
      ∧ amount (payment e) = JStr "10000000000000"
      ∧ recipient (payment e) = JStr "0x5678"
      ∧ chainId (payment e) = JNum 84532.
Proof.
  split; [reflexivity|]. split; [discriminate|].
  destruct (callEndpoint_payment_fields (rt := Mock.runtime) Mock.agent
              "http://x/api/payment/builder" no_options [] Mock.plain_get
              Mock.paid_reply (JObj [("message", JStr "ok")]) Mock.receipt_header
              [("txHash", JStr "0xabc"); ("amount", JStr "10000000000000");
               ("recipient", JStr "0x5678"); ("chainId", JNum 84532)]
              eq_refl eq_refl eq_refl eq_refl ltac:(discriminate) eq_refl)
    as (e & He & Hraw & Htx & Ham & Hre & Hch & _).
  exists e. repeat split; assumption.
Defined.

(** The store endpoint answers with a settlement that has neither
    [txHash], [amount], [recipient] nor [chainId]: all four are
    [undefined], [raw] is the settlement. *)
Example callEndpoint_settlement_fields :
  (callEndpoint (rt := Mock.runtime) Mock.agent "http://x/api/payment/store"
     (Some Mock.text_options) []).1 =
    Return {| data := JStr (Mock.stringify (JStr "PK"));
              payment := {| txHash := JUndefined; amount := JUndefined;
                            recipient := JUndefined; chainId := JUndefined;
                            raw := Mock.settlement |};
              resp_status := 200;
              resp_statusText := "OK" |}.
Proof. reflexivity. Qed.

(** A missing page: 404 comes back as an envelope. *)
Lemma callEndpoint_passes_status_through_witness :
  fetchWithPayment Mock.agent [] "http://x/missing" Mock.plain_get =
    Return Mock.missing_reply
  ∧ ∃ e : X402Response,
      callEndpoint (rt := Mock.runtime) Mock.agent "http://x/missing"
        (Some no_options) [] =
        (Return e, [] ++ [EvFetchWithPayment "http://x/missing" Mock.plain_get])
      ∧ data e = JObj [("error", JStr "no such page")]
      ∧ resp_status e = 404%Z
      ∧ resp_statusText e = "Not Found".
Proof.
  split; [reflexivity|].
  apply (callEndpoint_passes_status_through (rt := Mock.runtime) Mock.agent
           "http://x/missing" no_options [] Mock.plain_get Mock.missing_reply);
    [reflexivity | reflexivity | reflexivity |].
  intros h Hh. discriminate Hh.
Defined.

(** A response with status 200 and a readable body whose payment header
    cannot be decoded: no envelope, an error. *)
Lemma callEndpoint_throws_on_undecodable_payment_header :
  fetchWithPayment Mock.agent [] "http://x/garbled" Mock.plain_get =
    Return Mock.garbled_reply
  ∧ readBody true Mock.garbled_reply = Return (JObj [("message", JStr "ok")])
  ∧ status Mock.garbled_reply = 200%Z
  ∧ callEndpoint (rt := Mock.runtime) Mock.agent "http://x/garbled"
      (Some no_options) [] =
      (Throw (new_Error "X402 request failed: Unexpected token in JSON at position 0"),
       [EvFetchWithPayment "http://x/garbled" Mock.plain_get]).
Proof. repeat split. Qed.

(** An unreachable host. *)
Lemma callEndpoint_wraps_errors_witness :
  fetchWithPayment Mock.agent [] "http://down" Mock.plain_get =
    Throw (JError "TypeError" "fetch failed")
  ∧ ∃ s : string,
      callEndpoint (rt := Mock.runtime) Mock.agent "http://down" (Some no_options) [] =
        (Throw (new_Error ("X402 request failed: " +:+ s)),
         [] ++ [EvFetchWithPayment "http://down" Mock.plain_get])
      ∧ includes ("X402 request failed: " +:+ s) "fetch failed" = true
      ∧ ("fetch failed" ≠ "" → s = "fetch failed").
Proof.
  split; [reflexivity|].
  apply (callEndpoint_wraps_errors (rt := Mock.runtime) Mock.agent "http://down"
           no_options [] Mock.plain_get (JError "TypeError" "fetch failed"));
    [reflexivity | left; reflexivity | reflexivity].
Defined.


(** A key without the prefix, and the key of the development account. *)
Lemma constructor_prefix_check_witness :
  startsWith "ac0974bec39a17e36ba4a6b4d238ff944bacb478cbed5efcae784d7bf4f2ff80" "0x" = false
  ∧ new_X402Agent (rt := Mock.runtime)
      "ac0974bec39a17e36ba4a6b4d238ff944bacb478cbed5efcae784d7bf4f2ff80" [] =
      (Throw (new_Error "Private key must start with 0x"), [])
  ∧ startsWith Mock.key "0x" = true
  ∧ new_X402Agent (rt := Mock.runtime) Mock.key [] =
      (Return Mock.agent,
       [EvPrivateKeyToAccount Mock.key; EvWrapFetchWithPayment Mock.wallet]).
Proof.
  split; [reflexivity|]. split.
  - apply (proj1 (constructor_prefix_check (rt := Mock.runtime)
                    "ac0974bec39a17e36ba4a6b4d238ff944bacb478cbed5efcae784d7bf4f2ff80" [])).
    reflexivity.
  - split; [reflexivity|].
    apply (proj2 (constructor_prefix_check (rt := Mock.runtime) Mock.key [])).
    reflexivity.
Defined.

(** Two agents for the development account, the second one constructed
    after a request was made: both show the address of that account. *)
Lemma address_deterministic_witness :
  new_X402Agent (rt := Mock.runtime) Mock.key
    [EvFetchWithPayment "http://x/free" Mock.plain_get] =
    (Return Mock.agent,
     [EvFetchWithPayment "http://x/free" Mock.plain_get;
      EvPrivateKeyToAccount Mock.key; EvWrapFetchWithPayment Mock.wallet])
  ∧ ∀ u1 u2 : Trace,
      address Mock.agent u1 =
        (Return "0xf39Fd6e51aad88F6F4ce6aB8827279cffFb92266", u1)
      ∧ address Mock.agent u2 =
        (Return "0xf39Fd6e51aad88F6F4ce6aB8827279cffFb92266", u2).
Proof.
  split; [reflexivity|].
  destruct (address_deterministic (rt := Mock.runtime) Mock.key
              [] [EvFetchWithPayment "http://x/free" Mock.plain_get]
              [EvPrivateKeyToAccount Mock.key; EvWrapFetchWithPayment Mock.wallet]
              [EvFetchWithPayment "http://x/free" Mock.plain_get;
               EvPrivateKeyToAccount Mock.key; EvWrapFetchWithPayment Mock.wallet]
              Mock.agent Mock.agent eq_refl eq_refl) as (acct & Hacct & Haddr).
  injection Hacct as <-. exact Haddr.
Defined.

(** The documented scenario: the builder endpoint answers
    [{message: "ok"}] with status 200 and the receipt in its header. *)
Example callBuilderEndpoint_scenario :
  ∃ e : X402Response,
    (callBuilderEndpoint (rt := Mock.runtime) Mock.agent "http://x" []).1 = Return e
    ∧ get_prop (data e) "message" = JStr "ok"
    ∧ txHash (payment e) = JStr "0xabc"
    ∧ resp_status e = 200%Z.
Proof. eexists. repeat split. Qed.

(** What is thrown need not be an error.  A thrown string has no
    [message]; a thrown [null] makes the [catch] block itself throw. *)
Example rethrow_string :
  rethrow (rt := Mock.runtime) (A := X402Response) (JStr "boom") [] =
    (Throw (new_Error "X402 request failed: Unknown error"), []).
Proof. reflexivity. Qed.

Example rethrow_null :
  rethrow (rt := Mock.runtime) (A := X402Response) JNull [] =
    (Throw (JError "TypeError" "Cannot read properties of null (reading 'message')"), []).
Proof. reflexivity. Qed.

(** * More about the agent *)

Section MoreProperties.

Context {rt : Runtime}.

Implicit Types (this : X402Agent) (url : string) (o : X402RequestOptions)
  (t : Trace) (fo : RequestInit) (r : Response).

Abbreviation request_of o :=
  (prepareFetchOptions (default "GET" (opt_method o))
     (default ∅ (opt_headers o)) (opt_body o)).

Abbreviation parseJson_of o := (default true (opt_parseJson o)).

(** The request cannot be built: nothing else happens. *)
Lemma callEndpoint_unbuilt this url o t (e : JsValue) :
  request_of o = Throw e → callEndpoint this url (Some o) t = (Throw e, t).
Proof. intros H. unfold callEndpoint, bind, lift. simpl. by rewrite H. Qed.

(** X1.  When [JSON.stringify] throws on an object body, [callEndpoint]
    throws that very value, not wrapped in ["X402 request failed"], and
    the fetch is not called. *)
Theorem callEndpoint_serialization_error_escapes this url o t (e : JsValue) :
  typeof (opt_body o) = "object" → opt_body o ≠ JNull →
  JSON_stringify (opt_body o) = Throw e →
  callEndpoint this url (Some o) t = (Throw e, t).
Proof.
  intros Hty Hnn He. apply callEndpoint_unbuilt.
  unfold prepareFetchOptions. by rewrite (object_truthy _ Hty Hnn), Hty, He.
Qed.

(** X2.  A truthy body that is not an object (a non-empty string, a
    number other than zero and [NaN], [true]) is handed to the fetch as
    it is, and the headers are the caller's: no [Content-Type] is
    added. *)
Theorem callEndpoint_primitive_body_passthrough this url o t :
  ToBoolean (opt_body o) = true → typeof (opt_body o) ≠ "object" →
  (callEndpoint this url (Some o) t).2 =
    t ++ [EvFetchWithPayment url
            {| ri_method := default "GET" (opt_method o);
               ri_headers := Some (default ∅ (opt_headers o));
               ri_body := Some (opt_body o) |}].
Proof. intros Hb Hty. apply callEndpoint_trace. by apply prepare_primitive. Qed.

(** X3.  A payment header that the decoder rejects makes the whole call
    fail, although the response arrived and its body was read: the
    decoder's error is wrapped like any other. *)
Theorem callEndpoint_wraps_decoder_errors this url o t fo r (d e : JsValue)
    (h m : string) :
  request_of o = Return fo →
  fetchWithPayment this t url fo = Return r →
  readBody (parseJson_of o) r = Return d →
  headers_get r "x-payment-response" = Some h → h ≠ "" →
  decodeXPaymentResponse h = Throw e →
  get_prop e "message" = JStr m →
  ∃ s : string,
    callEndpoint this url (Some o) t =
      (Throw (new_Error ("X402 request failed: " +:+ s)),
       t ++ [EvFetchWithPayment url fo])
    ∧ includes s m = true
    ∧ (m ≠ "" → s = m).
Proof.
  intros Hfo Hr Hd Hh Hne He Hm.
  destruct (rethrow_message (A := X402Response) e m
              (t ++ [EvFetchWithPayment url fo]) Hm) as (s & Hs & Hin & Heq).
  exists s. split; [|done].
  etransitivity; [|exact Hs]. apply callEndpoint_catches; [done|].
  right. right. exists r, d. by rewrite (decodePayment_present _ _ Hh Hne).
Qed.

(** X4.  When what the fetch throws is [undefined] or [null], the
    [catch] block fails on reading its [message]: the caller gets a
    [TypeError], not the wrapped error. *)
Theorem callEndpoint_nullish_throw_escapes this url o t fo (e : JsValue) :
  request_of o = Return fo →
  fetchWithPayment this t url fo = Throw e →
  is_nullish e = true →
  ∃ message : string,
    callEndpoint this url (Some o) t =
      (Throw (JError "TypeError" message), t ++ [EvFetchWithPayment url fo])
    ∧ startsWith message "X402 request failed" = false.
Proof.
  intros Hfo He Hn.
  rewrite (callEndpoint_catches this url o t fo e Hfo (or_introl He)).
  unfold rethrow, bind, lift, errorMessage. rewrite Hn.
  eexists. split; [reflexivity|]. reflexivity.
Qed.

(** X5.  When what the fetch throws has no [message] (or an empty one),
    the text of the error is its [response.data.error] if there is one,
    and ["Unknown error"] otherwise: a thrown string, for one, is
    lost. *)
Theorem callEndpoint_error_without_message this url o t fo (e : JsValue) :
  request_of o = Return fo →
  fetchWithPayment this t url fo = Throw e →
  is_nullish e = false →
  ToBoolean (get_prop e "message") = false →
  callEndpoint this url (Some o) t =
    (Throw (new_Error
              ("X402 request failed: " +:+
               (let detail :=
                  opt_chain (opt_chain (get_prop e "response") "data") "error" in
                if ToBoolean detail then ToString detail else "Unknown error"))),
     t ++ [EvFetchWithPayment url fo]).
Proof.
  intros Hfo He Hn Hm.
  rewrite (callEndpoint_catches this url o t fo e Hfo (or_introl He)).
  unfold rethrow, bind, lift, throw, errorMessage, js_or. rewrite Hn, Hm.
  by destruct (ToBoolean (opt_chain _ "error")).
Qed.

(** X6.  Whatever the options and whatever happens, a call makes at most
    one request, and to the address it was given; it makes none only
    when it throws. *)
Theorem callEndpoint_at_most_one_fetch this url (options : option X402RequestOptions) t :
  ((callEndpoint this url options t).2 = t
   ∧ ∃ e, (callEndpoint this url options t).1 = Throw e)
  ∨ ∃ fo, (callEndpoint this url options t).2 = t ++ [EvFetchWithPayment url fo].
Proof.
  assert (H : ∀ o,
    ((callEndpoint this url (Some o) t).2 = t
     ∧ ∃ e, (callEndpoint this url (Some o) t).1 = Throw e)
    ∨ ∃ fo, (callEndpoint this url (Some o) t).2 = t ++ [EvFetchWithPayment url fo]).
  { intros o. destruct (request_of o) as [fo|e] eqn:Hfo.
    - right. exists fo. by apply callEndpoint_trace.
    - left. rewrite (callEndpoint_unbuilt _ _ _ _ _ Hfo). eauto. }
  destruct options as [o|]; [apply H | apply (H no_options)].
Qed.

(** X7.  An empty [x-payment-response] header counts as none: the
    decoder is not consulted, [payment.raw] is [null] and the four
    payment fields are [undefined]. *)
Theorem callEndpoint_empty_header_as_absent this url o t fo r (d : JsValue) :
  request_of o = Return fo →
  fetchWithPayment this t url fo = Return r →
  readBody (parseJson_of o) r = Return d →
  headers_get r "x-payment-response" = Some "" →
  (callEndpoint this url (Some o) t).1 =
    Return {| data := d;
              payment := {| txHash := JUndefined; amount := JUndefined;
                            recipient := JUndefined; chainId := JUndefined;
                            raw := JNull |};
              resp_status := status r;
              resp_statusText := statusText r |}.
Proof.
  intros Hfo Hr Hd Hh.
  by rewrite (callEndpoint_returns _ _ _ _ _ _ _ _ Hfo Hr Hd (decodePayment_empty _ Hh)).
Qed.

(** X8.  In every request a call makes, the method is the caller's (or
    [GET]), each header other than [Content-Type] is there exactly when
    the caller supplied it, with the caller's value, and [Content-Type]
    is either the caller's or [application/json]. *)
Theorem callEndpoint_keeps_headers this url o t fo :
  (callEndpoint this url (Some o) t).2 = t ++ [EvFetchWithPayment url fo] →
  ri_method fo = default "GET" (opt_method o)
  ∧ ∃ h : gmap string string,
      ri_headers fo = Some h
      ∧ (∀ name, name ≠ "Content-Type" →
           h !! name = default ∅ (opt_headers o) !! name)
      ∧ (h !! "Content-Type" = default ∅ (opt_headers o) !! "Content-Type"
         ∨ h !! "Content-Type" = Some "application/json").
Proof.
  intros Htr.
  destruct (request_of o) as [fo'|e] eqn:Hfo.
  - rewrite (callEndpoint_trace _ _ _ _ _ Hfo) in Htr.
    apply app_inv_head in Htr. injection Htr as <-.
    unfold prepareFetchOptions in Hfo.
    destruct (ToBoolean (opt_body o)).
    + destruct (String.eqb (typeof (opt_body o)) "object").
      * destruct (JSON_stringify (opt_body o)); [|done].
        injection Hfo as <-. simpl. split; [done|]. eexists. split; [done|].
        split; [|right; apply lookup_insert_eq].
        intros name Hne. by apply lookup_insert_ne.
      * injection Hfo as <-. simpl. split; [done|]. eexists. eauto.
    + injection Hfo as <-. simpl. split; [done|]. eexists. eauto.
  - rewrite (callEndpoint_unbuilt _ _ _ _ _ Hfo) in Htr. simpl in Htr.
    apply (f_equal length) in Htr. rewrite length_app in Htr. simpl in Htr. lia.
Qed.

(** X9.  Constructing an agent makes no request.  What it does outside
    is: nothing, when the key lacks its prefix; one call of
    [privateKeyToAccount] on the key, when that call throws; that call
    and then one call of [wrapFetchWithPayment] on the account it gave,
    otherwise. *)
Theorem constructor_makes_no_request (privateKey : string) t :
  ∃ events : list Event,
    (new_X402Agent privateKey t).2 = t ++ events
    ∧ ((startsWith privateKey "0x" = false ∧ events = [])
       ∨ (startsWith privateKey "0x" = true
          ∧ (∃ e, privateKeyToAccount privateKey = Throw e)
          ∧ events = [EvPrivateKeyToAccount privateKey])
       ∨ (startsWith privateKey "0x" = true
          ∧ ∃ acct, privateKeyToAccount privateKey = Return acct
                    ∧ events = [EvPrivateKeyToAccount privateKey;
                                EvWrapFetchWithPayment acct]))
    ∧ ∀ url fo, EvFetchWithPayment url fo ∉ events.
Proof.
  unfold new_X402Agent, bind, call, ret, throw.
  destruct (startsWith privateKey "0x"); simpl.
  - destruct (privateKeyToAccount privateKey) as [a|e].
    + exists [EvPrivateKeyToAccount privateKey; EvWrapFetchWithPayment a].
      rewrite <- app_assoc. split; [done|]. split; [right; right; eauto|].
      intros url fo Hin. apply elem_of_cons in Hin as [?|Hin]; [done|].
      apply elem_of_cons in Hin as [?|Hin]; [done|]. by apply elem_of_nil in Hin.
    + exists [EvPrivateKeyToAccount privateKey].
      split; [done|]. split; [right; left; eauto|].
      intros url fo Hin. apply elem_of_cons in Hin as [?|Hin]; [done|].
      by apply elem_of_nil in Hin.
  - exists []. rewrite app_nil_r. split; [done|]. split; [by left|].
    intros url fo Hin. by apply elem_of_nil in Hin.
Qed.

End MoreProperties.

(** * The console and the script *)

Section ScriptProperties.

Context {rt : Runtime} {host : Host}.

Implicit Types (this agent : X402Agent) (response : X402Response)
  (w : World) (e : JsValue).

(** ** Computations that make no call *)

Lemma quiet_ret {A} (a : A) : quiet (io_ret a).
Proof. by intros w. Qed.

Lemma quiet_throw {A} e : quiet (io_throw (A := A) e).
Proof. by intros w. Qed.

Lemma quiet_lift {A} (o : Outcome A) : quiet (io_lift o).
Proof. by intros w. Qed.

Lemma quiet_console_log (v : JsValue) : quiet (console_log v).
Proof. by intros w. Qed.

Lemma quiet_bind {A B} (m : IO A) (k : A → IO B) :
  quiet m → (∀ a, quiet (k a)) → quiet (io_bind m k).
Proof.
  intros Hm Hk w. unfold io_bind. specialize (Hm w).
  destruct (m w) as [[a|e] w']; simpl in *; [|done].
  by rewrite Hk.
Qed.

Ltac solve_quiet :=
  repeat lazymatch goal with
    | |- quiet (io_bind _ _) => apply quiet_bind; [|intros ?]
    | |- quiet (console_log _) => apply quiet_console_log
    | |- quiet (io_lift _) => apply quiet_lift
    | |- quiet (io_ret _) => apply quiet_ret
    | |- quiet (io_throw _) => apply quiet_throw
    | |- quiet (if ?b then _ else _) => destruct b
    end.

(** One entry written, and on to the rest. *)
Lemma log_returns {B} (v : JsValue) (k : unit → IO B) w :
  io_bind (console_log v) k w =
    k tt {| calls := calls w; stdout := stdout w ++ [v];
            stderr := stderr w; exitCode := exitCode w |}.
Proof. reflexivity. Qed.

Ltac log_steps :=
  repeat (rewrite log_returns; cbn [calls stdout stderr exitCode]).

Lemma quiet_logResponse this response (customLabel : option string) :
  quiet (logResponse this response customLabel).
Proof. unfold logResponse. solve_quiet. Qed.

Lemma quiet_main_catch e : quiet (main_catch e).
Proof. unfold main_catch. solve_quiet. Qed.

(** ** [logResponse] *)

(** The whole output, when the data can be serialized. *)
Lemma logResponse_returns this response (customLabel : option string) w
    (shown : JsValue) :
  stringify_indented_any (data response) = Return shown →
  logResponse this response customLabel w =
    (Return tt,
     {| calls := calls w;
        stdout := stdout w ++
          [JStr (nl +:+ str_repeat "=" 60);
           js_or (optional customLabel) (JStr "X402 Response");
           JStr (str_repeat "=" 60);
           JStr (nl +:+ "ðŸ“¦ Response Data:");
           shown;
           JStr (nl +:+ "ðŸ’³ Payment Details:");
           JStr ("  Transaction Hash: " +:+
                 ToString (js_or (txHash (payment response)) (JStr "N/A")));
           JStr ("  Amount: " +:+
                 ToString (js_or (amount (payment response)) (JStr "N/A")) +:+ " wei");
           JStr ("  Recipient: " +:+
                 ToString (js_or (recipient (payment response)) (JStr "N/A")));
           JStr ("  Chain ID: " +:+
                 ToString (js_or (chainId (payment response)) (JStr "N/A")));
           JStr (nl +:+ "ðŸ“¡ HTTP Status:");
           JStr ("  " +:+ pretty (resp_status response) +:+ " " +:+
                 resp_statusText response);
           JStr (nl +:+ str_repeat "=" 60 +:+ nl)];
        stderr := stderr w;
        exitCode := exitCode w |}).
Proof.
  intros Hs. unfold logResponse. log_steps.
  unfold io_bind at 1, io_lift at 1. rewrite Hs. log_steps.
  unfold console_log. cbn [calls stdout stderr exitCode].
  by rewrite <- !app_assoc.
Qed.

(** The output stops after the heading of the data when they cannot. *)
Lemma logResponse_throws this response (customLabel : option string) w e :
  stringify_indented_any (data response) = Throw e →
  logResponse this response customLabel w =
    (Throw e,
     {| calls := calls w;
        stdout := stdout w ++
          [JStr (nl +:+ str_repeat "=" 60);
           js_or (optional customLabel) (JStr "X402 Response");
           JStr (str_repeat "=" 60);
           JStr (nl +:+ "ðŸ“¦ Response Data:")];
        stderr := stderr w;
        exitCode := exitCode w |}).
Proof.
  intros Hs. unfold logResponse. log_steps.
  unfold io_bind at 1, io_lift at 1. rewrite Hs.
  by rewrite <- !app_assoc.
Qed.

(** X10.  [logResponse] only writes to the console: it makes no call,
    leaves the error stream and the exit code alone, and adds thirteen
    entries to the output when it returns, four when it throws. *)
Theorem logResponse_only_logs this response (customLabel : option string) w :
  calls (logResponse this response customLabel w).2 = calls w
  ∧ stderr (logResponse this response customLabel w).2 = stderr w
  ∧ exitCode (logResponse this response customLabel w).2 = exitCode w
  ∧ ∃ entries : list JsValue,
      stdout (logResponse this response customLabel w).2 = stdout w ++ entries
      ∧ length entries =
          match (logResponse this response customLabel w).1 with
          | Return _ => 13
          | Throw _ => 4
          end.
Proof.
  destruct (stringify_indented_any (data response)) as [shown|e] eqn:Hs.
  - rewrite (logResponse_returns _ _ _ _ _ Hs). simpl. eauto 10.
  - rewrite (logResponse_throws _ _ _ _ _ Hs). simpl. eauto 10.
Qed.

(** X11.  Without a label, or with an empty one, the title that is
    logged is ["X402 Response"]. *)
Theorem logResponse_default_label this response (customLabel : option string) w :
  customLabel = None ∨ customLabel = Some "" →
  stdout (logResponse this response customLabel w).2 !! (length (stdout w) + 1) =
    Some (JStr "X402 Response").
Proof.
  intros Hl.
  assert (Hor : js_or (optional customLabel) (JStr "X402 Response") =
                JStr "X402 Response") by (by destruct Hl as [-> | ->]).
  destruct (stringify_indented_any (data response)) as [shown|e] eqn:Hs.
  - rewrite (logResponse_returns _ _ _ _ _ Hs). simpl.
    rewrite lookup_app_r by lia.
    replace (length (stdout w) + 1 - length (stdout w)) with 1 by lia.
    simpl. by rewrite Hor.
  - rewrite (logResponse_throws _ _ _ _ _ Hs). simpl.
    rewrite lookup_app_r by lia.
    replace (length (stdout w) + 1 - length (stdout w)) with 1 by lia.
    simpl. by rewrite Hor.
Qed.

(** X12.  Each payment field that is falsy is shown as [N/A], whatever
    the other three are: not only a missing one, also a chain id of [0]
    or an empty string; the amount keeps its unit. *)
Theorem logResponse_falsy_fields_print_NA this response
    (customLabel : option string) w (shown : JsValue) :
  stringify_indented_any (data response) = Return shown →
  (ToBoolean (txHash (payment response)) = false →
   stdout (logResponse this response customLabel w).2 !! (length (stdout w) + 6) =
     Some (JStr "  Transaction Hash: N/A"))
  ∧ (ToBoolean (amount (payment response)) = false →
     stdout (logResponse this response customLabel w).2 !! (length (stdout w) + 7) =
       Some (JStr "  Amount: N/A wei"))
  ∧ (ToBoolean (recipient (payment response)) = false →
     stdout (logResponse this response customLabel w).2 !! (length (stdout w) + 8) =
       Some (JStr "  Recipient: N/A"))
  ∧ (ToBoolean (chainId (payment response)) = false →
     stdout (logResponse this response customLabel w).2 !! (length (stdout w) + 9) =
       Some (JStr "  Chain ID: N/A")).
Proof.
  intros Hs. rewrite (logResponse_returns _ _ _ _ _ Hs). cbn [snd stdout].
  repeat split; intros Hf; rewrite lookup_app_r by lia.
  - replace (length (stdout w) + 6 - length (stdout w)) with 6 by lia.
    cbn [lookup list_lookup]. unfold js_or. by rewrite Hf.
  - replace (length (stdout w) + 7 - length (stdout w)) with 7 by lia.
    cbn [lookup list_lookup]. unfold js_or. by rewrite Hf.
  - replace (length (stdout w) + 8 - length (stdout w)) with 8 by lia.
    cbn [lookup list_lookup]. unfold js_or. by rewrite Hf.
  - replace (length (stdout w) + 9 - length (stdout w)) with 9 by lia.
    cbn [lookup list_lookup]. unfold js_or. by rewrite Hf.
Qed.

(** X13.  When the data cannot be serialized, [logResponse] throws what
    the serializer threw, after the title and the heading of the data:
    the payment and the status are not shown. *)
Theorem logResponse_stops_on_serialization_error this response
    (customLabel : option string) w e :
  data response ≠ JUndefined →
  JSON_stringify_indented (data response) = Throw e →
  (logResponse this response customLabel w).1 = Throw e
  ∧ ∃ title : JsValue,
      stdout (logResponse this response customLabel w).2 =
        stdout w ++ [JStr (nl +:+ str_repeat "=" 60); title;
                     JStr (str_repeat "=" 60);
                     JStr (nl +:+ "ðŸ“¦ Response Data:")].
Proof.
  intros Hd He.
  assert (Hs : stringify_indented_any (data response) = Throw e).
  { unfold stringify_indented_any. rewrite He. by destruct (data response). }
  rewrite (logResponse_throws _ _ _ _ _ Hs). simpl. eauto.
Qed.

(** ** Stepping through a script *)

Lemma bind_returns {A B} (m : IO A) (k : A → IO B) w (a : A) w' :
  m w = (Return a, w') → io_bind m k w = k a w'.
Proof. intros H. unfold io_bind. by rewrite H. Qed.

(** A property of the trace at the end, one step at a time. *)
Lemma log_step {B} (v : JsValue) (k : unit → IO B) w (Q : Trace → Prop) :
  (∀ w', calls w' = calls w → Q (calls (k tt w').2)) →
  Q (calls (io_bind (console_log v) k w).2).
Proof. intros H. unfold io_bind, console_log. by apply H. Qed.

Lemma quiet_step {A B} (m : IO A) (k : A → IO B) w (Q : Trace → Prop) :
  quiet m → Q (calls w) →
  (∀ a w', calls w' = calls w → Q (calls (k a w').2)) →
  Q (calls (io_bind m k w).2).
Proof.
  intros Hm Hw Hk. unfold io_bind. specialize (Hm w).
  destruct (m w) as [[a|e] w']; simpl in *.
  - by apply Hk.
  - by rewrite Hm.
Qed.

Lemma run_step {A B} (m : M A) (k : A → IO B) w (Q : Trace → Prop) :
  Q (m (calls w)).2 →
  (∀ a w', calls w' = (m (calls w)).2 → Q (calls (k a w').2)) →
  Q (calls (io_bind (run m) k w).2).
Proof.
  intros Hw Hk. unfold io_bind, run.
  destruct (m (calls w)) as [[a|e] t']; simpl in *; [|done].
  by apply Hk.
Qed.

(** A property of the result, one step at a time; of the world between
    two steps only the trace matters. *)
Lemma log_then {B} (v : JsValue) (k : unit → IO B) w
    (R : Outcome B * World → Prop) :
  (∀ w', calls w' = calls w → R (k tt w')) →
  R (io_bind (console_log v) k w).
Proof. intros H. unfold io_bind, console_log. by apply H. Qed.

Lemma lift_then {A B} (o : Outcome A) (a : A) (k : A → IO B) w
    (R : Outcome B * World → Prop) :
  o = Return a → R (k a w) → R (io_bind (io_lift o) k w).
Proof. intros -> H. by unfold io_bind, io_lift. Qed.

Lemma run_then {A B} (m : M A) (a : A) (t' : Trace) (k : A → IO B) w
    (R : Outcome B * World → Prop) :
  m (calls w) = (Return a, t') →
  (∀ w', calls w' = t' → R (k a w')) →
  R (io_bind (run m) k w).
Proof. intros Hm H. unfold io_bind, run. rewrite Hm. by apply H. Qed.

Lemma quiet_then {A B} (m : IO A) (k : A → IO B) w
    (R : Outcome B * World → Prop) :
  quiet m → (∃ a, (m w).1 = Return a) →
  (∀ a w', calls w' = calls w → R (k a w')) →
  R (io_bind m k w).
Proof.
  intros Hq [a Ha] H. unfold io_bind. specialize (Hq w).
  destruct (m w) as [[a'|e] w']; simpl in *; [|done].
  by apply H.
Qed.

(** ** The requests of the script *)

(** Both requests of [main]: a [GET] without headers and without body
    to the builder endpoint under [BASE_URL]. *)
Abbreviation builder_call :=
  (EvFetchWithPayment (BASE_URL +:+ "/api/payment/builder")
     {| ri_method := "GET"; ri_headers := Some ∅; ri_body := None |}).

Abbreviation get_options :=
  (Some {| opt_method := Some "GET"; opt_headers := None;
           opt_body := JUndefined; opt_parseJson := None |}).

Lemma builder_trace agent (t : Trace) :
  (callBuilderEndpoint agent BASE_URL t).2 = t ++ [builder_call].
Proof. unfold callBuilderEndpoint. by apply callEndpoint_trace. Qed.

Lemma generic_trace agent (t : Trace) :
  (callEndpoint agent (BASE_URL +:+ "/api/payment/builder") get_options t).2 =
    t ++ [builder_call].
Proof. by apply callEndpoint_trace. Qed.

(** The [try] block makes the first request, and at most the second. *)
Lemma main_try_calls agent w :
  calls (main_try agent w).2 = calls w ++ [builder_call]
  ∨ calls (main_try agent w).2 = calls w ++ [builder_call; builder_call].
Proof.
  set (Q := λ t : Trace, t = calls w ++ [builder_call]
                         ∨ t = calls w ++ [builder_call; builder_call]).
  change (Q (calls (main_try agent w).2)). unfold main_try.
  apply (log_step _ _ _ Q). intros w1 H1.
  apply (run_step _ _ _ Q);
    [left; by rewrite builder_trace, H1 | intros response w2 H2].
  rewrite builder_trace, H1 in H2.
  apply (quiet_step _ _ _ Q); [apply quiet_logResponse | by left | intros _ w3 H3].
  rewrite H2 in H3.
  apply (log_step _ _ _ Q). intros w4 H4. rewrite H3 in H4.
  apply (quiet_step _ _ _ Q); [solve_quiet | by left | intros message w5 H5].
  rewrite H4 in H5.
  apply (log_step _ _ _ Q). intros w6 H6. rewrite H5 in H6.
  apply (log_step _ _ _ Q). intros w7 H7. rewrite H6 in H7.
  apply (quiet_step _ _ _ Q); [solve_quiet | by left | intros _ w8 H8].
  rewrite H7 in H8.
  apply (log_step _ _ _ Q). intros w9 H9. rewrite H8 in H9.
  apply (log_step _ _ _ Q). intros w10 H10. rewrite H9 in H10.
  assert (Hgen : (callEndpoint agent (BASE_URL +:+ "/api/payment/builder")
                    get_options (calls w10)).2 =
                 calls w ++ [builder_call; builder_call]).
  { rewrite generic_trace, H10, <- app_assoc. done. }
  apply (run_step _ _ _ Q); [by right | intros genericResponse w11 H11].
  rewrite Hgen in H11.
  apply (log_step _ _ _ Q). intros w12 H12. rewrite H11 in H12.
  apply (quiet_step _ _ _ Q); [solve_quiet | by right | intros serialized w13 H13].
  rewrite H12 in H13.
  apply (log_step _ _ _ Q). intros w14 H14. rewrite H13 in H14.
  apply (log_step _ _ _ Q). intros w15 H15. rewrite H14 in H15.
  apply (log_step _ _ _ Q). intros w16 H16. rewrite H15 in H16.
  apply (quiet_step _ _ _ Q); [solve_quiet | by right | intros message' w17 H17].
  rewrite H16 in H17.
  apply (quiet_step _ _ _ Q); [solve_quiet | by right | intros confirmed w18 H18].
  rewrite H17 in H18.
  apply (quiet_step _ _ _ Q); [solve_quiet | by right | intros _ w19 H19].
  rewrite H18 in H19.
  right. by rewrite quiet_console_log.
Qed.

(** ** [main] *)

(** X14.  Without a key ([getDecryptedPK] gives [undefined], [null] or
    the empty string) [main] says so and returns: no agent is
    constructed, nothing is requested, and the script ends with the exit
    code untouched. *)
Theorem main_without_key w (privateKey : option string) :
  getDecryptedPK = Return privateKey →
  ToBoolean (optional privateKey) = false →
  main w =
    (Return tt,
     {| calls := calls w;
        stdout := stdout w ++
          [JStr "🤖 AI Agent X402 Example";
           JStr ("=" +:+ str_repeat "=" 59 +:+ nl);
           JStr "🔐 Loading agent credentials...";
           JStr "❌ Failed to load private key. Exiting."];
        stderr := stderr w;
        exitCode := exitCode w |})
  ∧ script w = main w.
Proof.
  intros Hpk Hfalsy.
  assert (Hmain : main w =
    (Return tt,
     {| calls := calls w;
        stdout := stdout w ++
          [JStr "🤖 AI Agent X402 Example";
           JStr ("=" +:+ str_repeat "=" 59 +:+ nl);
           JStr "🔐 Loading agent credentials...";
           JStr "❌ Failed to load private key. Exiting."];
        stderr := stderr w;
        exitCode := exitCode w |})).
  { unfold main, io_bind, console_log, io_lift.
    cbn [calls stdout stderr exitCode]. rewrite Hpk, Hfalsy.
    cbn [negb calls stdout stderr exitCode]. by rewrite <- !app_assoc. }
  split; [done|]. unfold script, io_try. by rewrite Hmain.
Qed.

(** X15.  With a key that does not start with ["0x"], [main] throws the
    error of the constructor, after it has said that the credentials
    were loaded; nothing is requested, and the script ends with exit
    code 1 and the error on the error stream. *)
Theorem main_rejects_unprefixed_key w (privateKey : string) :
  getDecryptedPK = Return (Some privateKey) →
  privateKey ≠ "" →
  startsWith privateKey "0x" = false →
  main w =
    (Throw (new_Error "Private key must start with 0x"),
     {| calls := calls w;
        stdout := stdout w ++
          [JStr "🤖 AI Agent X402 Example";
           JStr ("=" +:+ str_repeat "=" 59 +:+ nl);
           JStr "🔐 Loading agent credentials...";
           JStr "✅ Credentials loaded successfully"];
        stderr := stderr w;
        exitCode := exitCode w |})
  ∧ calls (script w).2 = calls w
  ∧ stderr (script w).2 = stderr w ++ [new_Error "Private key must start with 0x"]
  ∧ exitCode (script w).2 = Some 1%Z.
Proof.
  intros Hpk Hne Hprefix.
  assert (Htruthy : ToBoolean (JStr privateKey) = true) by (by destruct privateKey).
  assert (Hmain : main w =
    (Throw (new_Error "Private key must start with 0x"),
     {| calls := calls w;
        stdout := stdout w ++
          [JStr "🤖 AI Agent X402 Example";
           JStr ("=" +:+ str_repeat "=" 59 +:+ nl);
           JStr "🔐 Loading agent credentials...";
           JStr "✅ Credentials loaded successfully"];
        stderr := stderr w;
        exitCode := exitCode w |})).
  { unfold main, io_bind, console_log, io_lift, run.
    cbn [calls stdout stderr exitCode]. rewrite Hpk.
    cbn [optional default from_option id]. rewrite Htruthy.
    cbn [negb calls stdout stderr exitCode].
    unfold new_X402Agent. rewrite Hprefix.
    cbn [negb throw calls stdout stderr exitCode]. by rewrite <- !app_assoc. }
  split; [done|]. unfold script, io_try. rewrite Hmain.
  by unfold io_bind, console_error, set_exitCode.
Qed.

(** The calls of [main], in every case. *)
(** What the constructor adds to the trace, and what it gives. *)
Lemma constructor_calls (key : string) (t : Trace) :
  new_X402Agent key t = (Throw (new_Error "Private key must start with 0x"), t)
  ∨ (∃ e, new_X402Agent key t = (Throw e, t ++ [EvPrivateKeyToAccount key]))
  ∨ (∃ acct,
       new_X402Agent key t =
         (Return {| account := acct; fetchWithPayment := wrapFetchWithPayment acct |},
          t ++ [EvPrivateKeyToAccount key; EvWrapFetchWithPayment acct])).
Proof.
  unfold new_X402Agent, bind, call, ret, throw.
  destruct (startsWith key "0x"); cbn [negb]; [|by left].
  destruct (privateKeyToAccount key) as [acct|e]; [|right; left; eauto].
  right. right. exists acct. by rewrite <- app_assoc.
Qed.

(** The calls of [main], in every case. *)
Lemma main_calls w :
  calls (main w).2 = calls w
  ∨ (∃ key, calls (main w).2 = calls w ++ [EvPrivateKeyToAccount key])
  ∨ (∃ key acct,
       calls (main w).2 =
         calls w ++ [EvPrivateKeyToAccount key; EvWrapFetchWithPayment acct;
                     builder_call])
  ∨ (∃ key acct,
       calls (main w).2 =
         calls w ++ [EvPrivateKeyToAccount key; EvWrapFetchWithPayment acct;
                     builder_call; builder_call]).
Proof.
  set (Q := λ t : Trace,
         t = calls w
         ∨ (∃ key, t = calls w ++ [EvPrivateKeyToAccount key])
         ∨ (∃ key acct,
              t = calls w ++ [EvPrivateKeyToAccount key;
                              EvWrapFetchWithPayment acct; builder_call])
         ∨ (∃ key acct,
              t = calls w ++ [EvPrivateKeyToAccount key;
                              EvWrapFetchWithPayment acct;
                              builder_call; builder_call])).
  change (Q (calls (main w).2)). unfold main.
  apply (log_step _ _ _ Q). intros w1 H1.
  apply (log_step _ _ _ Q). intros w2 H2. rewrite H1 in H2.
  apply (log_step _ _ _ Q). intros w3 H3. rewrite H2 in H3.
  apply (quiet_step _ _ _ Q);
    [apply quiet_lift | left; exact H3 | intros privateKey w4 H4].
  rewrite H3 in H4.
  destruct (negb (ToBoolean (optional privateKey))).
  { rewrite quiet_console_log. left. exact H4. }
  apply (log_step _ _ _ Q). intros w5 H5. rewrite H4 in H5.
  set (key := default "" privateKey).
  destruct (constructor_calls key (calls w5)) as [Hnew | [(e & Hnew) | (acct & Hnew)]].
  - unfold io_bind at 1, run at 1. rewrite Hnew. left. exact H5.
  - unfold io_bind at 1, run at 1. rewrite Hnew. right. left.
    exists key. cbn [snd calls]. by rewrite H5.
  - apply (run_then _ _ _ _ _ (λ res, Q (calls res.2)) Hnew). intros w6 H6.
    rewrite H5 in H6.
    apply (run_then _ _ _ _ _ (λ res, Q (calls res.2)) eq_refl). intros w7 H7.
    rewrite H6 in H7.
    apply (log_step _ _ _ Q). intros w8 H8. rewrite H7 in H8.
    apply (log_step _ _ _ Q). intros w9 H9. rewrite H8 in H9.
    apply (log_step _ _ _ Q). intros w10 H10. rewrite H9 in H10.
    unfold io_try.
    pose proof (main_try_calls
                  {| account := acct; fetchWithPayment := wrapFetchWithPayment acct |}
                  w10) as Htry.
    rewrite H10, <- !app_assoc in Htry. cbn [app] in Htry.
    destruct (main_try _ w10) as [[[]|e] w']; cbn [snd] in *;
      rewrite ?quiet_main_catch;
      (destruct Htry as [-> | ->]; right; right; [left | right]);
      by exists key, acct.
Qed.

(** X16.  Whatever the key, the server and the transport do, the script
    makes at most two requests, and each is a [GET] without headers and
    without body to the builder endpoint under [BASE_URL]; before them
    it hands the key to [privateKeyToAccount] and the account to
    [wrapFetchWithPayment], once each. *)
Theorem script_at_most_two_requests w :
  ∃ events : list Event,
    calls (script w).2 = calls w ++ events
    ∧ (events = []
       ∨ (∃ key, events = [EvPrivateKeyToAccount key])
       ∨ (∃ key acct,
            events = [EvPrivateKeyToAccount key; EvWrapFetchWithPayment acct;
                      builder_call])
       ∨ (∃ key acct,
            events = [EvPrivateKeyToAccount key; EvWrapFetchWithPayment acct;
                      builder_call; builder_call])).
Proof.
  assert (Hscript : calls (script w).2 = calls (main w).2).
  { unfold script, io_try.
    destruct (main w) as [[[]|e] w']; [done|].
    by unfold io_bind, console_error, set_exitCode. }
  rewrite Hscript.
  destruct (main_calls w) as [H | [(key & H) | [(key & acct & H) | (key & acct & H)]]];
    rewrite H; eexists; (split; [try done; by rewrite app_nil_r|]); eauto 10.
Qed.

(** ** One run of [main], step by step *)

(** ** Computations that leave the error stream and the exit code alone *)

Lemma steady_ret {A} (a : A) : steady (io_ret a).
Proof. by intros w. Qed.

Lemma steady_throw {A} e : steady (io_throw (A := A) e).
Proof. by intros w. Qed.

Lemma steady_lift {A} (o : Outcome A) : steady (io_lift o).
Proof. by intros w. Qed.

Lemma steady_console_log (v : JsValue) : steady (console_log v).
Proof. by intros w. Qed.

Lemma steady_run {A} (m : M A) : steady (run m).
Proof. intros w. unfold run. by destruct (m (calls w)). Qed.

Lemma steady_bind {A B} (m : IO A) (k : A → IO B) :
  steady m → (∀ a, steady (k a)) → steady (io_bind m k).
Proof.
  intros Hm Hk w. unfold io_bind. destruct (Hm w) as [Herr Hexit].
  destruct (m w) as [[a|e] w']; simpl in *; [|done].
  destruct (Hk a w') as [Herr' Hexit']. by rewrite Herr', Hexit'.
Qed.

Lemma steady_try {A} (m : IO A) (h : JsValue → IO A) :
  steady m → (∀ e, steady (h e)) → steady (io_try m h).
Proof.
  intros Hm Hh w. unfold io_try. destruct (Hm w) as [Herr Hexit].
  destruct (m w) as [[a|e] w']; simpl in *; [done|].
  destruct (Hh e w') as [Herr' Hexit']. by rewrite Herr', Hexit'.
Qed.

Ltac solve_steady :=
  repeat lazymatch goal with
    | |- steady (io_bind _ _) => apply steady_bind; [|intros ?]
    | |- steady (io_try _ _) => apply steady_try; [|intros ?]
    | |- steady (console_log _) => apply steady_console_log
    | |- steady (run _) => apply steady_run
    | |- steady (io_lift _) => apply steady_lift
    | |- steady (io_ret _) => apply steady_ret
    | |- steady (io_throw _) => apply steady_throw
    | |- steady (if ?b then _ else _) => destruct b
    end.

Lemma steady_logResponse this response (customLabel : option string) :
  steady (logResponse this response customLabel).
Proof. unfold logResponse. solve_steady. Qed.

Lemma steady_main_catch e : steady (main_catch e).
Proof. unfold main_catch. solve_steady. Qed.

Lemma steady_main_try agent : steady (main_try agent).
Proof.
  unfold main_try. solve_steady; try apply steady_logResponse; solve_steady.
Qed.

(** Only the handler of the last line of the script writes to the error
    stream and sets the exit code: [main] does neither. *)
Lemma steady_main : steady main.
Proof.
  unfold main. solve_steady;
    first [apply steady_main_try | apply steady_main_catch].
Qed.

(** Up to the [try] block, with a key that the constructor accepts. *)
Lemma main_constructed w (privateKey : string) (acct : Account) :
  getDecryptedPK = Return (Some privateKey) →
  privateKey ≠ "" →
  startsWith privateKey "0x" = true →
  privateKeyToAccount privateKey = Return acct →
  ∃ w0 : World,
    main w =
      io_try (main_try {| account := acct;
                          fetchWithPayment := wrapFetchWithPayment acct |})
        main_catch w0
    ∧ calls w0 =
        calls w ++ [EvPrivateKeyToAccount privateKey; EvWrapFetchWithPayment acct]
    ∧ (∃ said : list JsValue, stdout w0 = stdout w ++ said)
    ∧ stderr w0 = stderr w
    ∧ exitCode w0 = exitCode w.
Proof.
  intros Hpk Hne Hprefix Hacct.
  assert (Htruthy : ToBoolean (JStr privateKey) = true) by (by destruct privateKey).
  unfold main.
  do 3 (rewrite (bind_returns (console_log _) _ _ tt _ eq_refl)).
  unfold io_bind at 1, io_lift at 1. rewrite Hpk.
  cbn [optional default from_option id]. rewrite Htruthy. cbn [negb].
  rewrite (bind_returns (console_log _) _ _ tt _ eq_refl).
  unfold io_bind at 1, run at 1. cbn [calls stdout stderr exitCode].
  unfold new_X402Agent, bind, call, ret, throw.
  rewrite Hprefix, Hacct. cbn [negb].
  rewrite (bind_returns (run (address _)) _ _ _ _ eq_refl).
  do 3 (rewrite (bind_returns (console_log _) _ _ tt _ eq_refl)).
  eexists. split; [reflexivity|].
  cbn [calls stdout stderr exitCode]. rewrite <- !app_assoc. eauto.
Qed.

(** What the script does with the result of [main]. *)
Lemma script_after_main w :
  match (main w).1 with
  | Return _ => script w = main w
  | Throw e =>
      calls (script w).2 = calls (main w).2
      ∧ stderr (script w).2 = stderr (main w).2 ++ [e]
      ∧ exitCode (script w).2 = Some 1%Z
  end.
Proof.
  unfold script, io_try. destruct (main w) as [[[]|e] w']; [done|].
  by unfold io_bind, console_error, set_exitCode.
Qed.

(** The [catch] block on an error object: the error goes on. *)
Lemma main_catch_rethrows w (name message : string) :
  (main_catch (JError name message) w).1 = Throw (JError name message)
  ∧ calls (main_catch (JError name message) w).2 = calls w
  ∧ stdout (main_catch (JError name message) w).2 =
      stdout w ++
        [JStr (nl +:+ "❌ Agent encountered an error:");
         JStr ("   " +:+ message);
         JStr (nl +:+ "🔄 Agent could retry or fall back to alternative action" +:+ nl)].
Proof.
  unfold main_catch, io_bind, console_log, io_lift, io_throw, member.
  cbn. by rewrite <- !app_assoc.
Qed.

(** X17.  When the first request fails with an error, [main] reports
    the wrapped error on the console and throws it again: the second
    request is not made, and the script ends with exit code 1. *)
Theorem main_first_request_fails w (privateKey : string) (acct : Account)
    (e : JsValue) (m : string) :
  getDecryptedPK = Return (Some privateKey) →
  privateKey ≠ "" →
  startsWith privateKey "0x" = true →
  privateKeyToAccount privateKey = Return acct →
  wrapFetchWithPayment acct
    (calls w ++ [EvPrivateKeyToAccount privateKey; EvWrapFetchWithPayment acct])
    (BASE_URL +:+ "/api/payment/builder")
    {| ri_method := "GET"; ri_headers := Some ∅; ri_body := None |} = Throw e →
  get_prop e "message" = JStr m → m ≠ "" →
  (main w).1 = Throw (new_Error ("X402 request failed: " +:+ m))
  ∧ calls (main w).2 =
      calls w ++ [EvPrivateKeyToAccount privateKey; EvWrapFetchWithPayment acct;
                  builder_call]
  ∧ (∃ earlier : list JsValue,
       stdout (main w).2 =
         stdout w ++ earlier ++
           [JStr (nl +:+ "❌ Agent encountered an error:");
            JStr ("   X402 request failed: " +:+ m);
            JStr (nl +:+ "🔄 Agent could retry or fall back to alternative action" +:+ nl)])
  ∧ exitCode (script w).2 = Some 1%Z.
Proof.
  intros Hpk Hne Hprefix Hacct Hfetch Hm Hmne.
  destruct (main_constructed w privateKey acct Hpk Hne Hprefix Hacct)
    as (w0 & Hmain & Hcalls & (said & Hsaid) & _ & _).
  set (agent := {| account := acct; fetchWithPayment := wrapFetchWithPayment acct |}) in *.
  assert (Hcall : callBuilderEndpoint agent BASE_URL (calls w0) =
                  (Throw (new_Error ("X402 request failed: " +:+ m)),
                   calls w0 ++ [builder_call])).
  { unfold callBuilderEndpoint. etransitivity.
    - apply (callEndpoint_catches agent _ _ _
               {| ri_method := "GET"; ri_headers := Some ∅; ri_body := None |} e);
        [reflexivity | left; rewrite Hcalls; exact Hfetch].
    - destruct (rethrow_message (A := X402Response) e m
                  (calls w0 ++ [builder_call]) Hm) as (s & Hs & _ & Heq).
      rewrite (Heq Hmne) in Hs. exact Hs. }
  assert (Htry : ∃ out : list JsValue,
    main_try agent w0 =
      (Throw (new_Error ("X402 request failed: " +:+ m)),
       {| calls := calls w0 ++ [builder_call]; stdout := stdout w0 ++ out;
          stderr := stderr w0; exitCode := exitCode w0 |})).
  { unfold main_try.
    rewrite (bind_returns (console_log _) _ _ tt _ eq_refl).
    unfold io_bind at 1, run at 1. cbn [calls stdout stderr exitCode].
    rewrite Hcall. eauto. }
  destruct Htry as (out & Htry).
  assert (Hw : main w =
    main_catch (new_Error ("X402 request failed: " +:+ m))
      {| calls := calls w0 ++ [builder_call]; stdout := stdout w0 ++ out;
         stderr := stderr w0; exitCode := exitCode w0 |}).
  { rewrite Hmain. unfold io_try. by rewrite Htry. }
  destruct (main_catch_rethrows
              {| calls := calls w0 ++ [builder_call]; stdout := stdout w0 ++ out;
                 stderr := stderr w0; exitCode := exitCode w0 |}
              "Error" ("X402 request failed: " +:+ m)) as (Ho & Hc & Hs).
  fold (new_Error ("X402 request failed: " +:+ m)) in Ho, Hc, Hs.
  rewrite <- Hw in Ho, Hc, Hs.
  split; [done|]. split; [|split].
  - rewrite Hc. cbn [calls]. by rewrite Hcalls, <- app_assoc.
  - rewrite Hs. cbn [stdout].
    exists (said ++ out). by rewrite Hsaid, <- !app_assoc.
  - pose proof (script_after_main w) as Hscript. rewrite Ho in Hscript.
    by destruct Hscript as (_ & _ & ?).
Qed.

(** The two calls of [main], both answered. *)
Lemma both_answered agent w0 (r1 r2 : Response) (d1 d2 p1 p2 : JsValue) :
  fetchWithPayment agent (calls w0) (BASE_URL +:+ "/api/payment/builder")
    {| ri_method := "GET"; ri_headers := Some ∅; ri_body := None |} = Return r1 →
  json r1 = Return d1 → decodePayment r1 = Return p1 →
  fetchWithPayment agent (calls w0 ++ [builder_call])
    (BASE_URL +:+ "/api/payment/builder")
    {| ri_method := "GET"; ri_headers := Some ∅; ri_body := None |} = Return r2 →
  json r2 = Return d2 → decodePayment r2 = Return p2 →
  callBuilderEndpoint agent BASE_URL (calls w0) =
    (Return (envelope d1 p1 r1), calls w0 ++ [builder_call])
  ∧ callEndpoint agent (BASE_URL +:+ "/api/payment/builder") get_options
      (calls w0 ++ [builder_call]) =
    (Return (envelope d2 p2 r2), calls w0 ++ [builder_call; builder_call]).
Proof.
  intros Hr1 Hd1 Hp1 Hr2 Hd2 Hp2. split.
  - unfold callBuilderEndpoint.
    apply (callEndpoint_returns agent _ _ _
             {| ri_method := "GET"; ri_headers := Some ∅; ri_body := None |}
             r1 d1 p1); [reflexivity | exact Hr1 | exact Hd1 | exact Hp1].
  - etransitivity.
    + apply (callEndpoint_returns agent _ _ _
               {| ri_method := "GET"; ri_headers := Some ∅; ri_body := None |}
               r2 d2 p2); [reflexivity | exact Hr2 | exact Hd2 | exact Hp2].
    + by rewrite <- app_assoc.
Qed.

(** X18.  When both requests are answered and the first answer has a
    string as its [message], [main] returns, and the builder endpoint
    has been requested, and so paid, twice: once through
    [callBuilderEndpoint], once through [callEndpoint].  The script
    ends as [main] does, with nothing on the error stream that was not
    there and the exit code as it was. *)
Theorem main_requests_twice w (privateKey : string) (acct : Account)
    (r1 r2 : Response) (d1 d2 p1 p2 shown serialized : JsValue) (message : string) :
  getDecryptedPK = Return (Some privateKey) →
  privateKey ≠ "" →
  startsWith privateKey "0x" = true →
  privateKeyToAccount privateKey = Return acct →
  wrapFetchWithPayment acct
    (calls w ++ [EvPrivateKeyToAccount privateKey; EvWrapFetchWithPayment acct])
    (BASE_URL +:+ "/api/payment/builder")
    {| ri_method := "GET"; ri_headers := Some ∅; ri_body := None |} = Return r1 →
  json r1 = Return d1 → decodePayment r1 = Return p1 →
  stringify_indented_any d1 = Return shown →
  get_prop d1 "message" = JStr message →
  wrapFetchWithPayment acct
    (calls w ++ [EvPrivateKeyToAccount privateKey; EvWrapFetchWithPayment acct;
                 builder_call])
    (BASE_URL +:+ "/api/payment/builder")
    {| ri_method := "GET"; ri_headers := Some ∅; ri_body := None |} = Return r2 →
  json r2 = Return d2 → decodePayment r2 = Return p2 →
  stringify_any d2 = Return serialized →
  (main w).1 = Return tt
  ∧ calls (main w).2 =
      calls w ++ [EvPrivateKeyToAccount privateKey; EvWrapFetchWithPayment acct;
                  builder_call; builder_call]
  ∧ script w = main w
  ∧ stderr (script w).2 = stderr w
  ∧ exitCode (script w).2 = exitCode w.
Proof.
  intros Hpk Hne Hprefix Hacct Hr1 Hd1 Hp1 Hshown Hmsg Hr2 Hd2 Hp2 Hser.
  destruct (main_constructed w privateKey acct Hpk Hne Hprefix Hacct)
    as (w0 & Hmain & Hcalls & _ & _ & _).
  set (agent := {| account := acct; fetchWithPayment := wrapFetchWithPayment acct |}) in *.
  rewrite <- Hcalls in Hr1.
  replace (calls w ++ [EvPrivateKeyToAccount privateKey; EvWrapFetchWithPayment acct;
                       builder_call])
    with (calls w0 ++ [builder_call]) in Hr2 by (by rewrite Hcalls, <- app_assoc).
  destruct (both_answered agent w0 r1 r2 d1 d2 p1 p2 Hr1 Hd1 Hp1 Hr2 Hd2 Hp2)
    as (Hcall1 & Hcall2).
  assert (Hmember : member d1 "message" = Return (JStr message)).
  { unfold member. by rewrite (message_not_nullish _ _ Hmsg), Hmsg. }
  set (R := λ res : Outcome unit * World,
         res.1 = Return tt
         ∧ calls res.2 = calls w0 ++ [builder_call; builder_call]).
  assert (Htry : R (main_try agent w0)).
  { unfold main_try.
    apply (log_then _ _ _ R). intros w1 H1.
    rewrite <- H1 in Hcall1.
    apply (run_then _ _ _ _ _ R Hcall1). intros w2 H2.
    apply (quiet_then _ _ _ R); [apply quiet_logResponse | |intros _ w3 H3].
    { exists tt. by rewrite (logResponse_returns agent (envelope d1 p1 r1) _ _ shown Hshown). }
    rewrite H2 in H3.
    apply (log_then _ _ _ R). intros w4 H4. rewrite H3 in H4.
    apply (lift_then _ _ _ _ R Hmember).
    apply (log_then _ _ _ R). intros w5 H5. rewrite H4 in H5.
    apply (log_then _ _ _ R). intros w6 H6. rewrite H5 in H6.
    apply (quiet_then _ _ _ R); [solve_quiet | |intros _ w7 H7].
    { exists tt. by destruct (ToBoolean _). }
    rewrite H6 in H7.
    apply (log_then _ _ _ R). intros w8 H8. rewrite H7 in H8.
    apply (log_then _ _ _ R). intros w9 H9. rewrite H8 in H9.
    rewrite <- H1, <- H9 in Hcall2.
    apply (run_then _ _ _ _ _ R Hcall2). intros w10 H10.
    apply (log_then _ _ _ R). intros w11 H11. rewrite H10 in H11.
    apply (lift_then _ _ _ _ R Hser).
    apply (log_then _ _ _ R). intros w12 H12. rewrite H11 in H12.
    apply (log_then _ _ _ R). intros w13 H13. rewrite H12 in H13.
    apply (log_then _ _ _ R). intros w14 H14. rewrite H13 in H14.
    apply (lift_then _ _ _ _ R Hmember).
    apply (lift_then _ (includes message "$0.01") _ _ R); [done|].
    apply (quiet_then _ _ _ R); [solve_quiet | |intros _ w15 H15].
    { exists tt. by destruct (includes message "$0.01"). }
    rewrite H14 in H15.
    split; [done|]. by rewrite quiet_console_log, H15, H1. }
  destruct Htry as (Hout & Hc).
  assert (Hw : main w = main_try agent w0).
  { rewrite Hmain. unfold io_try.
    destruct (main_try agent w0) as [[[]|e] w']; [done | discriminate]. }
  assert (Hscript : script w = main w).
  { pose proof (script_after_main w) as Hscript. rewrite Hw, Hout in Hscript.
    by rewrite Hw. }
  destruct (steady_main w) as [Herr Hexit].
  rewrite Hscript, Herr, Hexit, Hw.
  split; [done|]. split; [|done].
  by rewrite Hc, Hcalls, <- app_assoc.
Qed.

(** X19.  When the first answer is an object without [message] (an
    error object under a status that is not 2xx, for one: the status is
    not looked at), [main] still makes the second request, and then
    fails with a [TypeError] on [response.data.message.includes]; the
    script ends with exit code 1. *)
Theorem main_fails_after_both_requests w (privateKey : string) (acct : Account)
    (r1 r2 : Response) (d1 d2 p1 p2 shown serialized : JsValue) :
  getDecryptedPK = Return (Some privateKey) →
  privateKey ≠ "" →
  startsWith privateKey "0x" = true →
  privateKeyToAccount privateKey = Return acct →
  wrapFetchWithPayment acct
    (calls w ++ [EvPrivateKeyToAccount privateKey; EvWrapFetchWithPayment acct])
    (BASE_URL +:+ "/api/payment/builder")
    {| ri_method := "GET"; ri_headers := Some ∅; ri_body := None |} = Return r1 →
  json r1 = Return d1 → decodePayment r1 = Return p1 →
  stringify_indented_any d1 = Return shown →
  is_nullish d1 = false →
  get_prop d1 "message" = JUndefined →
  wrapFetchWithPayment acct
    (calls w ++ [EvPrivateKeyToAccount privateKey; EvWrapFetchWithPayment acct;
                 builder_call])
    (BASE_URL +:+ "/api/payment/builder")
    {| ri_method := "GET"; ri_headers := Some ∅; ri_body := None |} = Return r2 →
  json r2 = Return d2 → decodePayment r2 = Return p2 →
  stringify_any d2 = Return serialized →
  (∃ text : string, (main w).1 = Throw (JError "TypeError" text))
  ∧ calls (main w).2 =
      calls w ++ [EvPrivateKeyToAccount privateKey; EvWrapFetchWithPayment acct;
                  builder_call; builder_call]
  ∧ exitCode (script w).2 = Some 1%Z.
Proof.
  intros Hpk Hne Hprefix Hacct Hr1 Hd1 Hp1 Hshown Hnn Hmsg Hr2 Hd2 Hp2 Hser.
  destruct (main_constructed w privateKey acct Hpk Hne Hprefix Hacct)
    as (w0 & Hmain & Hcalls & _ & _ & _).
  set (agent := {| account := acct; fetchWithPayment := wrapFetchWithPayment acct |}) in *.
  rewrite <- Hcalls in Hr1.
  replace (calls w ++ [EvPrivateKeyToAccount privateKey; EvWrapFetchWithPayment acct;
                       builder_call])
    with (calls w0 ++ [builder_call]) in Hr2 by (by rewrite Hcalls, <- app_assoc).
  destruct (both_answered agent w0 r1 r2 d1 d2 p1 p2 Hr1 Hd1 Hp1 Hr2 Hd2 Hp2)
    as (Hcall1 & Hcall2).
  assert (Hmember : member d1 "message" = Return JUndefined).
  { unfold member. by rewrite Hnn, Hmsg. }
  set (text := "Cannot read properties of undefined (reading 'includes')").
  set (R := λ res : Outcome unit * World,
         res.1 = Throw (JError "TypeError" text)
         ∧ calls res.2 = calls w0 ++ [builder_call; builder_call]).
  assert (Htry : R (main_try agent w0)).
  { unfold main_try.
    apply (log_then _ _ _ R). intros w1 H1.
    rewrite <- H1 in Hcall1.
    apply (run_then _ _ _ _ _ R Hcall1). intros w2 H2.
    apply (quiet_then _ _ _ R); [apply quiet_logResponse | |intros _ w3 H3].
    { exists tt. by rewrite (logResponse_returns agent (envelope d1 p1 r1) _ _ shown Hshown). }
    rewrite H2 in H3.
    apply (log_then _ _ _ R). intros w4 H4. rewrite H3 in H4.
    apply (lift_then _ _ _ _ R Hmember).
    apply (log_then _ _ _ R). intros w5 H5. rewrite H4 in H5.
    apply (log_then _ _ _ R). intros w6 H6. rewrite H5 in H6.
    apply (quiet_then _ _ _ R); [solve_quiet | |intros _ w7 H7].
    { exists tt. by destruct (ToBoolean _). }
    rewrite H6 in H7.
    apply (log_then _ _ _ R). intros w8 H8. rewrite H7 in H8.
    apply (log_then _ _ _ R). intros w9 H9. rewrite H8 in H9.
    rewrite <- H1, <- H9 in Hcall2.
    apply (run_then _ _ _ _ _ R Hcall2). intros w10 H10.
    apply (log_then _ _ _ R). intros w11 H11. rewrite H10 in H11.
    apply (lift_then _ _ _ _ R Hser).
    apply (log_then _ _ _ R). intros w12 H12. rewrite H11 in H12.
    apply (log_then _ _ _ R). intros w13 H13. rewrite H12 in H13.
    apply (log_then _ _ _ R). intros w14 H14. rewrite H13 in H14.
    apply (lift_then _ _ _ _ R Hmember).
    unfold io_bind, io_lift, call_includes. cbn.
    split; [reflexivity|]. cbn [snd]. by rewrite H14, H1. }
  destruct Htry as (Hout & Hc).
  destruct (main_try agent w0) as [o w'] eqn:Htry. simpl in Hout, Hc. subst o.
  assert (Hw : main w = main_catch (JError "TypeError" text) w').
  { rewrite Hmain. unfold io_try. by rewrite Htry. }
  destruct (main_catch_rethrows w' "TypeError" text) as (Ho & Hcc & _).
  rewrite <- Hw in Ho, Hcc.
  split; [eauto|]. split.
  - by rewrite Hcc, Hc, Hcalls, <- app_assoc.
  - pose proof (script_after_main w) as Hscript. rewrite Ho in Hscript.
    by destruct Hscript as (_ & _ & ?).
Qed.

End ScriptProperties.

(** * The further properties on the test doubles *)

(** An object that cannot be serialized as body. *)
Lemma callEndpoint_serialization_error_escapes_witness :
  JSON_stringify (Runtime := Demo.strict_runtime) (opt_body Demo.self_options) =
    Throw (JError "TypeError" "Converting circular structure to JSON")
  ∧ callEndpoint (rt := Demo.strict_runtime) Mock.agent "http://x/free"
      (Some Demo.self_options) [] =
      (Throw (JError "TypeError" "Converting circular structure to JSON"), []).
Proof.
  split; [reflexivity|].
  apply (callEndpoint_serialization_error_escapes (rt := Demo.strict_runtime));
    [reflexivity | discriminate | reflexivity].
Defined.

(** A string as body. *)
Lemma callEndpoint_primitive_body_passthrough_witness :
  (callEndpoint (rt := Mock.runtime) Mock.agent "http://x/free"
     (Some (Mock.body_options (JStr "hello"))) []).2 =
    [] ++ [EvFetchWithPayment "http://x/free"
             {| ri_method := "GET"; ri_headers := Some ∅;
                ri_body := Some (JStr "hello") |}].
Proof.
  apply (callEndpoint_primitive_body_passthrough (rt := Mock.runtime) Mock.agent
           "http://x/free" (Mock.body_options (JStr "hello")) []);
    [reflexivity | discriminate].
Defined.

(** The server with the unreadable payment header. *)
Lemma callEndpoint_wraps_decoder_errors_witness :
  ∃ s : string,
    callEndpoint (rt := Mock.runtime) Mock.agent "http://x/garbled"
      (Some no_options) [] =
      (Throw (new_Error ("X402 request failed: " +:+ s)),
       [] ++ [EvFetchWithPayment "http://x/garbled" Mock.plain_get])
    ∧ includes s "Unexpected token in JSON at position 0" = true
    ∧ ("Unexpected token in JSON at position 0" ≠ "" →
       s = "Unexpected token in JSON at position 0").
Proof.
  apply (callEndpoint_wraps_decoder_errors (rt := Mock.runtime) Mock.agent
           "http://x/garbled" no_options [] Mock.plain_get Mock.garbled_reply
           (JObj [("message", JStr "ok")])
           (JError "SyntaxError" "Unexpected token in JSON at position 0")
           "not-base64");
    [reflexivity | reflexivity | reflexivity | reflexivity | discriminate
    | reflexivity | reflexivity].
Defined.

(** A transport that rejects with [undefined]. *)
Lemma callEndpoint_nullish_throw_escapes_witness :
  ∃ message : string,
    callEndpoint (rt := Mock.runtime) (Demo.rejecting JUndefined) "http://x/free"
      (Some no_options) [] =
      (Throw (JError "TypeError" message),
       [] ++ [EvFetchWithPayment "http://x/free" Mock.plain_get])
    ∧ startsWith message "X402 request failed" = false.
Proof.
  apply (callEndpoint_nullish_throw_escapes (rt := Mock.runtime)
           (Demo.rejecting JUndefined) "http://x/free" no_options []
           Mock.plain_get JUndefined); reflexivity.
Defined.

(** A transport that rejects with the error of an HTTP client. *)
Lemma callEndpoint_error_without_message_witness :
  callEndpoint (rt := Mock.runtime) (Demo.rejecting Demo.quota_error)
    "http://x/free" (Some no_options) [] =
    (Throw (new_Error "X402 request failed: quota exceeded"),
     [] ++ [EvFetchWithPayment "http://x/free" Mock.plain_get]).
Proof.
  apply (callEndpoint_error_without_message (rt := Mock.runtime)
           (Demo.rejecting Demo.quota_error) "http://x/free" no_options []
           Mock.plain_get Demo.quota_error); reflexivity.
Defined.

(** An answer with an empty payment header. *)
Lemma callEndpoint_empty_header_as_absent_witness :
  headers_get Demo.blank_reply "x-payment-response" = Some ""
  ∧ (callEndpoint (rt := Mock.runtime) (Demo.answering Demo.blank_reply)
       "http://x/free" (Some no_options) []).1 =
      Return {| data := JObj [("message", JStr "ok")];
                payment := {| txHash := JUndefined; amount := JUndefined;
                              recipient := JUndefined; chainId := JUndefined;
                              raw := JNull |};
                resp_status := 200;
                resp_statusText := "OK" |}.
Proof.
  split; [reflexivity|].
  apply (callEndpoint_empty_header_as_absent (rt := Mock.runtime)
           (Demo.answering Demo.blank_reply) "http://x/free" no_options []
           Mock.plain_get Demo.blank_reply); reflexivity.
Defined.

(** The chat request once more: [POST] kept, [Content-Type] replaced. *)
Lemma callEndpoint_keeps_headers_witness :
  "POST" = default "GET" (opt_method Mock.chat_options)
  ∧ ∃ h : gmap string string,
      Some (<["Content-Type" := "application/json"]>
              ({[ "Content-Type" := "text/plain" ]} : gmap string string)) = Some h
      ∧ (∀ name, name ≠ "Content-Type" →
           h !! name = default ∅ (opt_headers Mock.chat_options) !! name)
      ∧ (h !! "Content-Type" =
           default ∅ (opt_headers Mock.chat_options) !! "Content-Type"
         ∨ h !! "Content-Type" = Some "application/json").
Proof.
  apply (callEndpoint_keeps_headers (rt := Mock.runtime) Mock.agent
           "http://x/api/payment/chat" Mock.chat_options []
           {| ri_method := "POST";
              ri_headers :=
                Some (<["Content-Type" := "application/json"]>
                        ({[ "Content-Type" := "text/plain" ]} : gmap string string));
              ri_body := Some (JStr (Mock.stringify (JObj [("messages", JArr [])]))) |}).
  reflexivity.
Defined.

(** An envelope logged without a label. *)
Lemma logResponse_default_label_witness :
  stdout (logResponse (rt := Mock.runtime) (host := Demo.host) Mock.agent
            Demo.unpaid None Demo.boot).2 !! (length (stdout Demo.boot) + 1) =
    Some (JStr "X402 Response").
Proof.
  apply (logResponse_default_label (rt := Mock.runtime) (host := Demo.host)).
  left. reflexivity.
Defined.

(** A chain id of [0], empty strings and [null]; and a missing recipient
    beside a transaction hash that is there. *)
Lemma logResponse_falsy_fields_print_NA_witness :
  (stdout (logResponse (rt := Mock.runtime) (host := Demo.host) Mock.agent
             Demo.zeroes None Demo.boot).2 !! (length (stdout Demo.boot) + 6) =
     Some (JStr "  Transaction Hash: N/A")
   ∧ stdout (logResponse (rt := Mock.runtime) (host := Demo.host) Mock.agent
               Demo.zeroes None Demo.boot).2 !! (length (stdout Demo.boot) + 7) =
       Some (JStr "  Amount: N/A wei")
   ∧ stdout (logResponse (rt := Mock.runtime) (host := Demo.host) Mock.agent
               Demo.zeroes None Demo.boot).2 !! (length (stdout Demo.boot) + 9) =
       Some (JStr "  Chain ID: N/A"))
  ∧ txHash (payment Demo.knotted) = JStr "0xabc"
  ∧ stdout (logResponse (rt := Mock.runtime) (host := Demo.host) Mock.agent
              Demo.knotted None Demo.boot).2 !! (length (stdout Demo.boot) + 8) =
      Some (JStr "  Recipient: N/A").
Proof.
  destruct (logResponse_falsy_fields_print_NA (rt := Mock.runtime)
              (host := Demo.host) Mock.agent Demo.zeroes None Demo.boot
              (JStr "null") eq_refl) as (Htx & Ham & _ & Hch).
  destruct (logResponse_falsy_fields_print_NA (rt := Mock.runtime)
              (host := Demo.host) Mock.agent Demo.knotted None Demo.boot
              (JStr (Demo.indented "" (data Demo.knotted))) eq_refl)
    as (_ & _ & Hre & _).
  split; [|split; [reflexivity|]].
  - split; [apply Htx; reflexivity|]. split; [apply Ham | apply Hch]; reflexivity.
  - apply Hre. reflexivity.
Defined.

(** Data that the indenting serializer refuses. *)
Lemma logResponse_stops_on_serialization_error_witness :
  (logResponse (rt := Mock.runtime) (host := Demo.strict_host) Mock.agent
     Demo.knotted None Demo.boot).1 =
    Throw (JError "TypeError" "Converting circular structure to JSON")
  ∧ ∃ title : JsValue,
      stdout (logResponse (rt := Mock.runtime) (host := Demo.strict_host)
                Mock.agent Demo.knotted None Demo.boot).2 =
        stdout Demo.boot ++
          [JStr (nl +:+ str_repeat "=" 60); title; JStr (str_repeat "=" 60);
           JStr (nl +:+ "ðŸ“¦ Response Data:")].
Proof.
  apply (logResponse_stops_on_serialization_error (rt := Mock.runtime)
           (host := Demo.strict_host) Mock.agent Demo.knotted None Demo.boot);
    [discriminate | reflexivity].
Defined.

(** No key at all. *)
Lemma main_without_key_witness :
  main (rt := Mock.runtime) (host := Demo.host_with None None) Demo.boot =
    (Return tt,
     {| calls := [];
        stdout := [] ++
          [JStr "🤖 AI Agent X402 Example";
           JStr ("=" +:+ str_repeat "=" 59 +:+ nl);
           JStr "🔐 Loading agent credentials...";
           JStr "❌ Failed to load private key. Exiting."];
        stderr := [];
        exitCode := None |})
  ∧ script (rt := Mock.runtime) (host := Demo.host_with None None) Demo.boot =
    main (rt := Mock.runtime) (host := Demo.host_with None None) Demo.boot.
Proof.
  apply (main_without_key (rt := Mock.runtime) (host := Demo.host_with None None)
           Demo.boot None); reflexivity.
Defined.

(** The development key without its prefix. *)
Lemma main_rejects_unprefixed_key_witness :
  startsWith Demo.bare_key "0x" = false
  ∧ (main (rt := Mock.runtime) (host := Demo.host_with None (Some Demo.bare_key))
       Demo.boot).1 = Throw (new_Error "Private key must start with 0x")
  ∧ calls (script (rt := Mock.runtime)
             (host := Demo.host_with None (Some Demo.bare_key)) Demo.boot).2 = []
  ∧ exitCode (script (rt := Mock.runtime)
                (host := Demo.host_with None (Some Demo.bare_key)) Demo.boot).2 =
      Some 1%Z.
Proof.
  split; [reflexivity|].
  destruct (main_rejects_unprefixed_key (rt := Mock.runtime)
              (host := Demo.host_with None (Some Demo.bare_key))
              Demo.boot Demo.bare_key eq_refl ltac:(discriminate) eq_refl)
    as (Hmain & Hcalls & _ & Hexit).
  split; [by rewrite Hmain|]. split; [exact Hcalls | exact Hexit].
Defined.

(** A host that cannot be reached. *)
Lemma main_first_request_fails_witness :
  (main (rt := Mock.runtime)
     (host := Demo.host_with (Some "http://down") (Some Mock.key)) Demo.boot).1 =
    Throw (new_Error "X402 request failed: fetch failed")
  ∧ calls (main (rt := Mock.runtime)
             (host := Demo.host_with (Some "http://down") (Some Mock.key))
             Demo.boot).2 =
      [EvPrivateKeyToAccount Mock.key; EvWrapFetchWithPayment Mock.wallet;
       EvFetchWithPayment "http://down/api/payment/builder" Mock.plain_get]
  ∧ exitCode (script (rt := Mock.runtime)
                (host := Demo.host_with (Some "http://down") (Some Mock.key))
                Demo.boot).2 = Some 1%Z.
Proof.
  destruct (main_first_request_fails (rt := Mock.runtime)
              (host := Demo.host_with (Some "http://down") (Some Mock.key))
              Demo.boot Mock.key Mock.wallet (JError "TypeError" "fetch failed")
              "fetch failed" eq_refl ltac:(discriminate) eq_refl eq_refl eq_refl
              eq_refl ltac:(discriminate))
    as (Hout & Hcalls & _ & Hexit).
  split; [exact Hout|]. split; [exact Hcalls | exact Hexit].
Defined.

(** The builder endpoint of the mock transport, requested twice. *)
Lemma main_requests_twice_witness :
  (main (rt := Mock.runtime) (host := Demo.host) Demo.boot).1 = Return tt
  ∧ calls (main (rt := Mock.runtime) (host := Demo.host) Demo.boot).2 =
      [EvPrivateKeyToAccount Mock.key; EvWrapFetchWithPayment Mock.wallet;
       EvFetchWithPayment "http://x/api/payment/builder" Mock.plain_get;
       EvFetchWithPayment "http://x/api/payment/builder" Mock.plain_get]
  ∧ script (rt := Mock.runtime) (host := Demo.host) Demo.boot =
    main (rt := Mock.runtime) (host := Demo.host) Demo.boot
  ∧ stderr (script (rt := Mock.runtime) (host := Demo.host) Demo.boot).2 = []
  ∧ exitCode (script (rt := Mock.runtime) (host := Demo.host) Demo.boot).2 = None.
Proof.
  apply (main_requests_twice (rt := Mock.runtime) (host := Demo.host)
           Demo.boot Mock.key Mock.wallet Mock.paid_reply Mock.paid_reply
           (JObj [("message", JStr "ok")]) (JObj [("message", JStr "ok")])
           Mock.receipt Mock.receipt
           (JStr (Demo.indented "" (JObj [("message", JStr "ok")])))
           (JStr (Mock.stringify (JObj [("message", JStr "ok")])))
           "ok");
    first [reflexivity | discriminate].
Defined.

(** A server that answers 402 and an error object to both requests. *)
Lemma main_fails_after_both_requests_witness :
  status (Mock.reply 402 "Payment Required" None
            (JObj [("error", JStr "payment required")])) = 402%Z
  ∧ (∃ text : string,
       (main (rt := Demo.unpaid_runtime) (host := Demo.host) Demo.boot).1 =
         Throw (JError "TypeError" text))
  ∧ calls (main (rt := Demo.unpaid_runtime) (host := Demo.host) Demo.boot).2 =
      [EvPrivateKeyToAccount Mock.key; EvWrapFetchWithPayment Mock.wallet;
       EvFetchWithPayment "http://x/api/payment/builder" Mock.plain_get;
       EvFetchWithPayment "http://x/api/payment/builder" Mock.plain_get]
  ∧ exitCode (script (rt := Demo.unpaid_runtime) (host := Demo.host) Demo.boot).2 =
      Some 1%Z.
Proof.
  split; [reflexivity|].
  apply (main_fails_after_both_requests (rt := Demo.unpaid_runtime)
           (host := Demo.host) Demo.boot Mock.key Mock.wallet
           (Mock.reply 402 "Payment Required" None
              (JObj [("error", JStr "payment required")]))
           (Mock.reply 402 "Payment Required" None
              (JObj [("error", JStr "payment required")]))
           (JObj [("error", JStr "payment required")])
           (JObj [("error", JStr "payment required")])
           JNull JNull
           (JStr (Demo.indented "" (JObj [("error", JStr "payment required")])))
           (JStr (Mock.stringify (JObj [("error", JStr "payment required")]))));
    first [reflexivity | discriminate].
Defined.
